(** * OSCKey: the OSC-to-keyboard bridge of [osckey.py]

    A shallow embedding of the message-dispatch and key-execution engine
    ([handle_keypress], [press_key_combo], [press_key_with_applescript]),
    of the configuration persistence ([load_config], [save_config]) and of
    the listener lifecycle ([start_osc_server], [restart_osc_server],
    [update_osc_config]), of the shortcut endpoints ([add_shortcut],
    [delete_shortcut]), of the log buffer ([BufferHandler], [get_logs]) and
    of the permission check ([check_accessibility_permissions]), together
    with the properties the design document states about them and further
    properties read off the code.

    Conventions of the embedding.
    - Python [str] is [string]; case mapping and whitespace are those of
      the ASCII range (characters above 127 are left untouched by [lower],
      [upper] and are never whitespace).
    - Python dictionaries are [gmap]s with string keys.
    - Module-level globals, the log, the injected keyboard events, the
      scripting invocations and the configuration file form the [world];
      what the operating system answers is read from an [env] of oracles.
    - Exceptions are explicit: a computation returns [Ok] or [Raise].
    - [DEFAULT_CONFIG] is the dictionary of the source text: [config]
      starts as a copy of it and the fallback of [load_config] goes back
      to it.
    - The page, the menu bar and process start-up are outside the
      development. *)

From Stdlib Require Import ZArith Ascii.
From stdpp Require Import gmap strings list fin_maps pretty.

Local Open Scope Z_scope.

(** ** Python string primitives *)

Module Py.

(** [str.isspace] on one character, ASCII range: TAB, LF, VT, FF, CR,
    the separators FS, GS, RS, US, and the space. *)
Definition isspace (c : ascii) : bool :=
  match c with
  | "009" | "010" | "011" | "012" | "013"
  | "028" | "029" | "030" | "031" | " " => true
  | _ => false
  end%char.

Definition lower_char (c : ascii) : ascii :=
  let n := N_of_ascii c in
  if ((65 <=? n) && (n <=? 90))%N then ascii_of_N (n + 32) else c.

Definition upper_char (c : ascii) : ascii :=
  let n := N_of_ascii c in
  if ((97 <=? n) && (n <=? 122))%N then ascii_of_N (n - 32) else c.

(** [s.lower()] *)
Fixpoint lower (s : string) : string :=
  match s with
  | EmptyString => EmptyString
  | String c s' => String (lower_char c) (lower s')
  end.

(** [s.upper()] *)
Fixpoint upper (s : string) : string :=
  match s with
  | EmptyString => EmptyString
  | String c s' => String (upper_char c) (upper s')
  end.

(** [s.capitalize()]: first character upper-cased, the rest lower-cased. *)
Definition capitalize (s : string) : string :=
  match s with
  | EmptyString => EmptyString
  | String c s' => String (upper_char c) (lower s')
  end.

Fixpoint lstrip (s : string) : string :=
  match s with
  | EmptyString => EmptyString
  | String c s' => if isspace c then lstrip s' else s
  end.

Fixpoint rstrip (s : string) : string :=
  match s with
  | EmptyString => EmptyString
  | String c s' =>
      match rstrip s' with
      | EmptyString => if isspace c then EmptyString else String c EmptyString
      | r => String c r
      end
  end.

(** [s.strip()] *)
Definition strip (s : string) : string := rstrip (lstrip s).

(** [s.split()] without separator: the maximal runs of non-whitespace.
    [tok] is the token being read. *)
Fixpoint split_from (tok : string) (s : string) : list string :=
  match s with
  | EmptyString => match tok with EmptyString => [] | _ => [tok] end
  | String c s' =>
      if isspace c then
        match tok with
        | EmptyString => split_from EmptyString s'
        | _ => tok :: split_from EmptyString s'
        end
      else split_from (tok +:+ String c EmptyString) s'
  end.

Definition split (s : string) : list string := split_from EmptyString s.

(** [c in s] for a one-character [c] *)
Fixpoint contains (c : ascii) (s : string) : bool :=
  match s with
  | EmptyString => false
  | String d s' => if Ascii.eqb c d then true else contains c s'
  end.

(** [s.startswith(p)] *)
Definition startswith (s p : string) : bool := String.prefix p s.

(** [s[n:]] *)
Fixpoint slice_from (n : nat) (s : string) : string :=
  match n, s with
  | O, _ => s
  | S n', String _ s' => slice_from n' s'
  | S _, EmptyString => EmptyString
  end.

(** [sep.join(l)] *)
Fixpoint join (sep : string) (l : list string) : string :=
  match l with
  | [] => EmptyString
  | [x] => x
  | x :: l' => x +:+ sep +:+ join sep l'
  end.

(** [p in s] for strings: [p] occurs in [s]. *)
Fixpoint occurs_in (p s : string) : bool :=
  String.prefix p s ||
  match s with
  | EmptyString => false
  | String _ s' => occurs_in p s'
  end.

(** Truth value of a string: non-empty. *)
Definition truthy (s : string) : bool :=
  match s with EmptyString => false | _ => true end.

(** Truth value of an optional string ([None] or a [str]). *)
Definition truthy_opt (k : option string) : bool :=
  match k with Some s => truthy s | None => false end.

End Py.

(** ** Key vocabulary *)

(** The members of pynput's [Key] enumeration the tables mention. *)
Inductive Key : Set :=
| Key_cmd | Key_alt | Key_ctrl | Key_shift
| Key_space | Key_enter | Key_tab | Key_backspace | Key_delete | Key_esc
| Key_up | Key_down | Key_left | Key_right
| Key_home | Key_end | Key_page_up | Key_page_down
| Key_f1 | Key_f2 | Key_f3 | Key_f4 | Key_f5 | Key_f6
| Key_f7 | Key_f8 | Key_f9 | Key_f10 | Key_f11 | Key_f12.

(** What [keyboard.press] receives: a [Key] member or a plain string. *)
Inductive keycode : Set :=
| Special (k : Key)
| Char (s : string).

Definition MODIFIERS : gmap string Key :=
  list_to_map
    [ ("command", Key_cmd); ("cmd", Key_cmd);
      ("option", Key_alt); ("opt", Key_alt); ("alt", Key_alt);
      ("control", Key_ctrl); ("ctrl", Key_ctrl);
      ("shift", Key_shift) ].

Definition SPECIAL_KEYS : gmap string Key :=
  list_to_map
    [ ("space", Key_space); ("enter", Key_enter); ("return", Key_enter);
      ("tab", Key_tab); ("backspace", Key_backspace); ("delete", Key_delete);
      ("esc", Key_esc); ("escape", Key_esc);
      ("up", Key_up); ("down", Key_down); ("left", Key_left);
      ("right", Key_right); ("home", Key_home); ("end", Key_end);
      ("pageup", Key_page_up); ("pagedown", Key_page_down);
      ("f1", Key_f1); ("f2", Key_f2); ("f3", Key_f3); ("f4", Key_f4);
      ("f5", Key_f5); ("f6", Key_f6); ("f7", Key_f7); ("f8", Key_f8);
      ("f9", Key_f9); ("f10", Key_f10); ("f11", Key_f11); ("f12", Key_f12) ].

(** macOS virtual key codes of the arrow keys. *)
Definition APPLESCRIPT_KEY_CODES : gmap string Z :=
  list_to_map [ ("left", 123); ("right", 124); ("down", 125); ("up", 126) ].

(** [k in d] for a dictionary [d]. *)
Definition dict_in {V} (k : string) (d : gmap string V) : bool :=
  bool_decide (is_Some (d !! k)).

(** ** Data model *)

(** One entry of [config["custom_shortcuts"]]: a dictionary whose three
    fields may each be absent. *)
Record shortcut : Type := {
  sc_modifiers : option (list string);
  sc_key : option string;
  sc_description : option string
}.

(** The values held by the top level of the configuration document:
    strings, integers and the shortcut table. *)
Inductive value : Type :=
| VStr (s : string)
| VInt (n : Z)
| VShortcuts (m : gmap string shortcut).

(** An OSC argument: a string, or a number known by its [str()] form. *)
Inductive osc_arg : Type :=
| ArgStr (s : string)
| ArgNum (str_form : string).

Definition str (a : osc_arg) : string :=
  match a with ArgStr s => s | ArgNum r => r end.

Definition isinstance_str (a : osc_arg) : bool :=
  match a with ArgStr _ => true | ArgNum _ => false end.

(** [type(v).__name__] *)
Definition type_name (v : value) : string :=
  match v with VStr _ => "str" | VInt _ => "int" | VShortcuts _ => "dict" end.

Inductive level : Set := INFO | WARNING | ERROR.

Inductive kb_event : Type :=
| Press (k : keycode)
| Release (k : keycode).

(** [CONFIG_FILE] on disk: absent, present but rejected by [json.load]
    (or by [dict.update]), or a JSON object. *)
Inductive file_state : Type :=
| Missing
| Unreadable (err : string)
| Document (d : gmap string value).

(** A bound [ThreadingOSCUDPServer]. *)
Record server : Type := { srv_ip : string; srv_port : Z }.

(** What a Python function hands back when the caller looks at it. *)
Inductive pyval : Set :=
| PyNone
| PyBool (b : bool).

(** The state of the process and of what it acts on: the globals
    [config] and [osc_server_instance], the records handed to [logger],
    the events injected through pynput, the scripts handed to
    [osascript], and [CONFIG_FILE]. *)
Record world : Type := {
  config : gmap string value;
  osc_server_instance : option server;
  log : list (level * string);
  keyboard : list kb_event;
  osascript : list string;
  config_file : file_state
}.

(** What [subprocess.run] does with an [osascript] command. *)
Inductive osa_outcome : Type :=
| Exited (returncode : Z) (stderr : string)
| Aborted (err : string).

(** What writing [CONFIG_FILE] does: the document is written, or [open]
    raises and the file stays as it was, or [json.dump] raises after
    [open] has truncated the file, and what is left of it makes a later
    [json.load] fail with [left_over]. *)
Inductive write_outcome : Set :=
| Written
| OpenFails (err : string)
| DumpFails (err : string) (left_over : string).

(** The answers of the operating system. *)
Record env : Type := {
  kb_error : list kb_event -> kb_event -> option string;
  run_osascript : string -> osa_outcome;
  write_config : write_outcome;
  bind_error : string -> Z -> option string;
  shutdown_error : option string
}.

Definition DEFAULT_SHORTCUTS : gmap string shortcut :=
  list_to_map
    [ ("/key/save", {| sc_modifiers := Some ["command"]; sc_key := Some "s";
                       sc_description := Some "Save" |});
      ("/key/copy", {| sc_modifiers := Some ["command"]; sc_key := Some "c";
                       sc_description := Some "Copy" |});
      ("/key/paste", {| sc_modifiers := Some ["command"]; sc_key := Some "v";
                        sc_description := Some "Paste" |});
      ("/key/undo", {| sc_modifiers := Some ["command"]; sc_key := Some "z";
                       sc_description := Some "Undo" |});
      ("/key/redo", {| sc_modifiers := Some ["command"; "shift"];
                       sc_key := Some "z"; sc_description := Some "Redo" |}) ].

Definition DEFAULT_CONFIG : gmap string value :=
  list_to_map
    [ ("osc_port", VInt 5005);
      ("osc_ip", VStr "0.0.0.0");
      ("custom_shortcuts", VShortcuts DEFAULT_SHORTCUTS) ].

(** The module right after import: [config = DEFAULT_CONFIG.copy()],
    no server, nothing logged, nothing typed. *)
Definition initial_world (f : file_state) : world :=
  {| config := DEFAULT_CONFIG; osc_server_instance := None; log := [];
     keyboard := []; osascript := []; config_file := f |}.

(** ** Computations: state and exceptions *)

Inductive result (A : Type) : Type :=
| Ok (a : A)
| Raise (e : string).
Arguments Ok {A} a.
Arguments Raise {A} e.

Definition M (A : Type) : Type := world -> result A * world.

#[global] Instance M_ret : MRet M := fun A a w => (Ok a, w).

#[global] Instance M_bind : MBind M := fun A B f m w =>
  match m w with
  | (Ok a, w') => f a w'
  | (Raise e, w') => (Raise e, w')
  end.

Definition raise {A} (e : string) : M A := fun w => (Raise e, w).

(** [try: body except Exception as e: handler e] *)
Definition try_except {A} (body : M A) (handler : string -> M A) : M A :=
  fun w =>
    match body w with
    | (Ok a, w') => (Ok a, w')
    | (Raise e, w') => handler e w'
    end.

Definition get_config : M (gmap string value) := fun w => (Ok (config w), w).

Definition set_config (c : gmap string value) : M unit := fun w =>
  (Ok tt, {| config := c; osc_server_instance := osc_server_instance w;
             log := log w; keyboard := keyboard w; osascript := osascript w;
             config_file := config_file w |}).

Definition get_server : M (option server) :=
  fun w => (Ok (osc_server_instance w), w).

Definition set_server (s : option server) : M unit := fun w =>
  (Ok tt, {| config := config w; osc_server_instance := s;
             log := log w; keyboard := keyboard w; osascript := osascript w;
             config_file := config_file w |}).

Definition get_file : M file_state := fun w => (Ok (config_file w), w).

Definition set_file (f : file_state) : M unit := fun w =>
  (Ok tt, {| config := config w; osc_server_instance := osc_server_instance w;
             log := log w; keyboard := keyboard w; osascript := osascript w;
             config_file := f |}).

(** [logger.info], [logger.warning], [logger.error] *)
Definition logger (l : level) (msg : string) : M unit := fun w =>
  (Ok tt, {| config := config w; osc_server_instance := osc_server_instance w;
             log := log w ++ [(l, msg)]; keyboard := keyboard w;
             osascript := osascript w; config_file := config_file w |}).

(** [time.sleep]: time is not part of the state. *)
Definition sleep (milliseconds : Z) : M unit := mret tt.

(** ** Key executor *)

Definition dquote : string := String "034"%char EmptyString.

(** The [/key/[...]] rendering shared by [press_key_combo] (as
    [combo_str]) and by [build_key_path]. *)
Definition combo_str (modifiers : list string) (key : option string) : string :=
  match key with
  | Some k =>
      if Py.truthy k
      then Py.join "+" (map Py.capitalize modifiers ++ [Py.upper k])
      else Py.join "+" (map Py.capitalize modifiers)
  | None => Py.join "+" (map Py.capitalize modifiers)
  end.

Definition build_key_path (mods : list string) (k : option string) : string :=
  "/key/[" +:+ combo_str mods k +:+ "]".

(** The clause of the AppleScript [using {...}] list for one modifier
    name; names outside the vocabulary contribute nothing. *)
Definition modifier_part (name : string) : option string :=
  let mod_lower := Py.lower name in
  if bool_decide (mod_lower ∈ ["command"; "cmd"]) then Some "command down"
  else if bool_decide (mod_lower ∈ ["option"; "opt"; "alt"]) then Some "option down"
  else if bool_decide (mod_lower ∈ ["control"; "ctrl"]) then Some "control down"
  else if bool_decide (mod_lower ∈ ["shift"]) then Some "shift down"
  else None.

(** The script text built by [press_key_with_applescript]. *)
Definition applescript_for (modifiers : list string) (key : string) : string :=
  let modifier_parts := omap modifier_part modifiers in
  let modifier_str :=
    match modifier_parts with [] => "" | _ => Py.join ", " modifier_parts end in
  let key_lower := Py.lower key in
  match APPLESCRIPT_KEY_CODES !! key_lower with
  | Some key_code =>
      if Py.truthy modifier_str
      then "tell application " +:+ dquote +:+ "System Events" +:+ dquote +:+
           " to key code " +:+ pretty key_code +:+
           " using {" +:+ modifier_str +:+ "}"
      else "tell application " +:+ dquote +:+ "System Events" +:+ dquote +:+
           " to key code " +:+ pretty key_code
  | None =>
      if Py.truthy modifier_str
      then "tell application " +:+ dquote +:+ "System Events" +:+ dquote +:+
           " to keystroke " +:+ dquote +:+ key +:+ dquote +:+
           " using {" +:+ modifier_str +:+ "}"
      else "tell application " +:+ dquote +:+ "System Events" +:+ dquote +:+
           " to keystroke " +:+ dquote +:+ key +:+ dquote
  end.

(** The main key handed to pynput: a [SPECIAL_KEYS] member, the string
    itself, or nothing when [key] is empty or absent. *)
Definition main_key_of (key : option string) : option keycode :=
  match key with
  | Some k =>
      if Py.truthy k then
        match SPECIAL_KEYS !! Py.lower k with
        | Some sk => Some (Special sk)
        | None => Some (Char k)
        end
      else None
  | None => None
  end.

(** The backend test of [press_key_combo]:
    [key_lower in APPLESCRIPT_KEY_CODES and modifiers]. *)
Definition use_applescript (modifiers : list string) (key : option string) : bool :=
  let key_lower := if Py.truthy_opt key then Py.lower <$> key else None in
  match key_lower with
  | Some kl => dict_in kl APPLESCRIPT_KEY_CODES
  | None => false
  end && bool_decide (modifiers ≠ []).

Section Executor.

Variable E : env.

(** [keyboard.press] and [keyboard.release]: the event reaches the
    operating system unless the call raises. *)
Definition keyboard_emit (ev : kb_event) : M unit := fun w =>
  match kb_error E (keyboard w) ev with
  | Some e => (Raise e, w)
  | None =>
      (Ok tt, {| config := config w;
                 osc_server_instance := osc_server_instance w;
                 log := log w; keyboard := keyboard w ++ [ev];
                 osascript := osascript w; config_file := config_file w |})
  end.

Definition keyboard_press (k : keycode) : M unit := keyboard_emit (Press k).
Definition keyboard_release (k : keycode) : M unit := keyboard_emit (Release k).

(** [subprocess.run(['osascript', '-e', script], ..., timeout=2)] *)
Definition subprocess_run (script : string) : M (Z * string) := fun w =>
  let w' := {| config := config w;
               osc_server_instance := osc_server_instance w;
               log := log w; keyboard := keyboard w;
               osascript := osascript w ++ [script];
               config_file := config_file w |} in
  match run_osascript E script with
  | Exited returncode stderr => (Ok (returncode, stderr), w')
  | Aborted e => (Raise e, w')
  end.

Definition press_key_with_applescript
    (modifiers : list string) (key : option string) : M bool :=
  try_except
    (match key with
     | None => raise "'NoneType' object has no attribute 'lower'"
     | Some k =>
         '(returncode, stderr) ← subprocess_run (applescript_for modifiers k);
         if bool_decide (returncode ≠ 0) then
           logger ERROR ("AppleScript error: " +:+ stderr);;
           mret false
         else mret true
     end)
    (fun e => logger ERROR ("Error with AppleScript: " +:+ e);; mret false).

(** The first loop of [press_key_combo]: modifier names to [Key]
    members, unknown names logged and left out. *)
Fixpoint modifier_keys_of (modifiers : list string) : M (list Key) :=
  match modifiers with
  | [] => mret []
  | name :: rest =>
      match MODIFIERS !! Py.lower name with
      | Some k => ks ← modifier_keys_of rest; mret (k :: ks)
      | None =>
          logger WARNING ("Unknown modifier: " +:+ name);;
          modifier_keys_of rest
      end
  end.

Fixpoint press_all (ks : list Key) : M unit :=
  match ks with
  | [] => mret tt
  | k :: ks' => keyboard_press (Special k);; press_all ks'
  end.

Fixpoint release_all (ks : list Key) : M unit :=
  match ks with
  | [] => mret tt
  | k :: ks' => keyboard_release (Special k);; release_all ks'
  end.

(** The pynput branch of [press_key_combo], inside its [try]. *)
Definition direct_backend
    (modifier_keys : list Key) (main_key : option keycode) : M unit :=
  press_all modifier_keys;;
  sleep 10;;
  match main_key with
  | Some mk => keyboard_press mk;; keyboard_release mk
  | None => mret tt
  end;;
  sleep 10;;
  release_all (reverse modifier_keys).

Definition press_key_combo
    (modifiers : option (list string)) (key : option string) : M pyval :=
  let modifiers := default [] modifiers in
  modifier_keys ← modifier_keys_of modifiers;
  let main_key := main_key_of key in
  try_except
    (let combo := combo_str modifiers key in
     logger INFO ("PRESSING: /key/[" +:+ combo +:+ "]");;
     if use_applescript modifiers key then
       logger INFO "Using AppleScript method for better app compatibility";;
       success ← press_key_with_applescript modifiers key;
       (if success : bool
        then logger INFO ("SUCCESS: /key/[" +:+ combo +:+ "]")
        else logger ERROR ("AppleScript method failed for /key/[" +:+ combo +:+ "]"));;
       mret PyNone
     else
       direct_backend modifier_keys main_key;;
       logger INFO ("SUCCESS: /key/[" +:+ combo +:+ "]");;
       mret PyNone)
    (fun e => logger ERROR ("ERROR pressing key combo: " +:+ e);; mret PyNone).

End Executor.

(** ** Address resolver *)

(** The outcomes of [handle_keypress]: the table entry, the parsed
    arguments, or one of its two warnings. *)
Inductive resolution : Type :=
| Shortcut (mods : list string) (k : option string) (desc : string)
| Parsed (modifiers : list string) (key : option string)
| NoArguments
| NoValidKey.

(** The argument list after the reserved-prefix fallback: without
    arguments the trimmed rest of a [/key/...] address stands in, and
    [None] is the "No arguments provided" exit. *)
Definition args_or_address
    (address : string) (args : list osc_arg) : option (list osc_arg) :=
  match args with
  | [] =>
      if Py.startswith address "/key/" then
        let key_from_address := Py.strip (Py.slice_from 5 address) in
        if Py.truthy key_from_address
        then Some [ArgStr key_from_address]
        else None
      else None
  | _ => Some args
  end.

(** [if len(args) == 1 and isinstance(args[0], str) and ' ' in args[0]:
       args = args[0].split()] *)
Definition split_single (args : list osc_arg) : list osc_arg :=
  match args with
  | [a] =>
      if isinstance_str a && Py.contains " " (str a)
      then map ArgStr (Py.split (str a))
      else args
  | _ => args
  end.

(** The loop separating modifiers from the main key. *)
Fixpoint classify (args : list osc_arg) : list string * option string :=
  match args with
  | [] => ([], None)
  | arg :: rest =>
      let arg_str := Py.strip (str arg) in
      let arg_lower := Py.lower arg_str in
      if dict_in arg_lower MODIFIERS
      then let '(modifiers, key) := classify rest in (arg_str :: modifiers, key)
      else ([], Some arg_str)
  end.

(** [if key or modifiers: ... else: warning] *)
Definition finish (parsed : list string * option string) : resolution :=
  let '(modifiers, key) := parsed in
  if Py.truthy_opt key || bool_decide (modifiers ≠ [])
  then Parsed modifiers key
  else NoValidKey.

Definition resolve_entry (sc : shortcut) : resolution :=
  Shortcut (default [] (sc_modifiers sc)) (sc_key sc)
           (default "" (sc_description sc)).

(** The decision taken by [handle_keypress] for a shortcut table. *)
Definition resolve (shortcuts : gmap string shortcut)
    (address : string) (args : list osc_arg) : resolution :=
  match shortcuts !! address with
  | Some sc => resolve_entry sc
  | None =>
      match args_or_address address args with
      | None => NoArguments
      | Some args => finish (classify (split_single args))
      end
  end.

Section Handler.

Variable E : env.

(** [address in config["custom_shortcuts"]] followed by the lookup. *)
Definition lookup_shortcut (address : string) : M (option shortcut) :=
  cfg ← get_config;
  match cfg !! "custom_shortcuts" with
  | None => raise "'custom_shortcuts'"
  | Some (VShortcuts m) => mret (m !! address)
  | Some (VStr s) =>
      if Py.occurs_in address s
      then raise "string indices must be integers"
      else mret None
  | Some (VInt _) => raise "argument of type 'int' is not iterable"
  end.

Definition handle_keypress (address : string) (args : list osc_arg) : M unit :=
  entry ← lookup_shortcut address;
  match entry with
  | Some shortcut =>
      let shortcut_desc := default "" (sc_description shortcut) in
      let mods := default [] (sc_modifiers shortcut) in
      let k := sc_key shortcut in
      let key_path := build_key_path mods k in
      (if Py.truthy shortcut_desc
       then logger INFO ("OSC RECEIVED: " +:+ address +:+ " -> " +:+ key_path
                         +:+ " (" +:+ shortcut_desc +:+ ")")
       else logger INFO ("OSC RECEIVED: " +:+ address +:+ " -> " +:+ key_path));;
      press_key_combo E (Some mods) k;;
      mret tt
  | None =>
      match args_or_address address args with
      | None =>
          logger WARNING ("OSC RECEIVED: " +:+ address +:+ " -> No arguments provided")
      | Some args =>
          let args := split_single args in
          let '(modifiers, key) := classify args in
          if Py.truthy_opt key || bool_decide (modifiers ≠ []) then
            let key_path := build_key_path modifiers key in
            logger INFO ("OSC RECEIVED: " +:+ address +:+ " -> " +:+ key_path);;
            press_key_combo E (Some modifiers) key;;
            mret tt
          else
            logger WARNING ("OSC RECEIVED: " +:+ address
                            +:+ " -> No valid key or modifier found")
      end
  end.

(** What [handle_keypress] does once the decision is taken. *)
Definition perform (address : string) (r : resolution) : M unit :=
  match r with
  | Shortcut mods k desc =>
      (if Py.truthy desc
       then logger INFO ("OSC RECEIVED: " +:+ address +:+ " -> "
                         +:+ build_key_path mods k +:+ " (" +:+ desc +:+ ")")
       else logger INFO ("OSC RECEIVED: " +:+ address +:+ " -> "
                         +:+ build_key_path mods k));;
      press_key_combo E (Some mods) k;;
      mret tt
  | Parsed modifiers key =>
      logger INFO ("OSC RECEIVED: " +:+ address +:+ " -> "
                   +:+ build_key_path modifiers key);;
      press_key_combo E (Some modifiers) key;;
      mret tt
  | NoArguments =>
      logger WARNING ("OSC RECEIVED: " +:+ address +:+ " -> No arguments provided")
  | NoValidKey =>
      logger WARNING ("OSC RECEIVED: " +:+ address
                      +:+ " -> No valid key or modifier found")
  end.

End Handler.

(** ** Persistence *)

Section Persistence.

Variable E : env.

Definition save_config : M unit :=
  try_except
    (cfg ← get_config;
     match write_config E with
     | Written => set_file (Document cfg)
     | OpenFails e => raise e
     | DumpFails e left_over => set_file (Unreadable left_over);; raise e
     end;;
     logger INFO "Configuration saved")
    (fun e => logger ERROR ("Error saving config: " +:+ e)).

Definition load_config : M unit :=
  try_except
    (f ← get_file;
     match f with
     | Document loaded_config =>
         cfg ← get_config;
         set_config (loaded_config ∪ cfg);;
         logger INFO "Configuration loaded from file"
     | Unreadable e => raise e
     | Missing =>
         save_config;;
         logger INFO "Created default configuration file"
     end)
    (fun e =>
       logger ERROR ("Error loading config: " +:+ e);;
       set_config DEFAULT_CONFIG).

End Persistence.

(** ** OSC listener and control surface *)

Record response : Type := { success : bool; message : string }.

Section Listener.

Variable E : env.

(** [osc_server.ThreadingOSCUDPServer((osc_ip, osc_port), disp)]: the
    socket layer wants a host string and an integer port (a [TypeError]
    otherwise, the host being looked at first), and then the operating
    system decides. *)
Definition bind (osc_ip osc_port : value) : M server :=
  match osc_ip, osc_port with
  | VStr ip, VInt port =>
      match bind_error E ip port with
      | None => mret {| srv_ip := ip; srv_port := port |}
      | Some e => raise e
      end
  | VStr _, _ =>
      raise ("'" +:+ type_name osc_port +:+ "' object cannot be interpreted as an integer")
  | _, _ =>
      raise ("str, bytes or bytearray expected, not " +:+ type_name osc_ip)
  end.

(** The body of the listener thread up to [serve_forever()], which then
    keeps the thread busy without touching the globals. *)
Definition start_osc_server : M unit :=
  try_except
    (cfg ← get_config;
     let osc_ip := default (VStr "127.0.0.1") (cfg !! "osc_ip") in
     let osc_port := default (VInt 5005) (cfg !! "osc_port") in
     srv ← bind osc_ip osc_port;
     set_server (Some srv);;
     logger INFO ("OSC Server started on " +:+ srv_ip srv +:+ ":"
                  +:+ pretty (srv_port srv)))
    (fun e => logger ERROR ("Error starting OSC server: " +:+ e)).

(** [shutdown()], [server_close()] and the bounded [join] of the old
    listener. *)
Definition stop_server : M unit :=
  match shutdown_error E with
  | Some e => raise e
  | None => mret tt
  end.

(** [threading.Thread(target=body, daemon=True).start()]: the body runs
    on its own; whatever it returns or raises stays in its thread. *)
Definition thread_start {A} (body : M A) : M unit :=
  fun w => (Ok tt, snd (body w)).

Definition restart_osc_server : M bool :=
  try_except
    (instance ← get_server;
     match instance with
     | Some _ => logger INFO "Stopping OSC server...";; stop_server
     | None => mret tt
     end;;
     sleep 500;;
     set_server None;;
     thread_start start_osc_server;;
     sleep 500;;
     logger INFO "OSC server restarted";;
     mret true)
    (fun e =>
       logger ERROR ("Error restarting OSC server: " +:+ e);;
       mret false).

(** [POST /api/config/osc] with the JSON object [data]. *)
Definition update_osc_config (data : gmap string value) : M response :=
  try_except
    (cfg ← get_config;
     set_config (<["osc_ip" := default (VStr "127.0.0.1") (data !! "osc_ip")]> cfg);;
     cfg ← get_config;
     set_config (<["osc_port" := default (VInt 5005) (data !! "osc_port")]> cfg);;
     save_config E;;
     ok ← restart_osc_server;
     mret {| success := ok;
             message := if ok : bool then "Configuration updated"
                        else "Failed to restart server" |})
    (fun e => mret {| success := false; message := e |}).

End Listener.

(** ** Control surface: the shortcut table *)

(** [jsonify({'success': ..., 'message': ...})], the message being left
    out of the answers that carry none. *)
Record reply : Type := { ok : bool; note : option string }.

(** The JSON object posted to [/api/shortcuts], with a string under
    ["address"] and a shortcut object under ["shortcut"]: each field may be
    absent. *)
Record shortcut_request : Type := {
  rq_address : option string;
  rq_shortcut : option shortcut
}.

(** [data[k]]: [KeyError(k)] when the field is absent. *)
Definition getitem {A} (k : string) (field : option A) : M A :=
  match field with
  | Some a => mret a
  | None => raise ("'" +:+ k +:+ "'")
  end.

(** [config['custom_shortcuts'][address] = sc]. The dictionary is changed
    in place; in the world this shows as the new value of
    [config["custom_shortcuts"]]. *)
Definition setitem_shortcut (address : string) (sc : shortcut) : M unit :=
  cfg ← get_config;
  match cfg !! "custom_shortcuts" with
  | None => raise "'custom_shortcuts'"
  | Some (VShortcuts m) =>
      set_config (<["custom_shortcuts" := VShortcuts (<[address := sc]> m)]> cfg)
  | Some v => raise ("'" +:+ type_name v +:+ "' object does not support item assignment")
  end.

Section Shortcuts.

Variable E : env.

(** [POST /api/shortcuts] *)
Definition add_shortcut (data : shortcut_request) : M reply :=
  try_except
    (address ← getitem "address" (rq_address data);
     if negb (Py.startswith address "/key/") then
       mret {| ok := false; note := Some "Address must start with /key/" |}
     else
       sc ← getitem "shortcut" (rq_shortcut data);
       setitem_shortcut address sc;;
       save_config E;;
       mret {| ok := true; note := None |})
    (fun e => mret {| ok := false; note := Some e |}).

(** [DELETE /api/shortcuts] *)
Definition delete_shortcut (data : shortcut_request) : M reply :=
  try_except
    (address ← getitem "address" (rq_address data);
     cfg ← get_config;
     match cfg !! "custom_shortcuts" with
     | None => raise "'custom_shortcuts'"
     | Some (VShortcuts m) =>
         if dict_in address m then
           set_config (<["custom_shortcuts" := VShortcuts (delete address m)]> cfg);;
           save_config E;;
           mret {| ok := true; note := None |}
         else mret {| ok := false; note := Some "Shortcut not found" |}
     | Some (VStr s) =>
         if Py.occurs_in address s
         then raise "'str' object doesn't support item deletion"
         else mret {| ok := false; note := Some "Shortcut not found" |}
     | Some (VInt _) => raise "argument of type 'int' is not iterable"
     end)
    (fun e => mret {| ok := false; note := Some e |}).

End Shortcuts.

(** ** The in-memory log *)

(** [d.append(x)] on a [deque(maxlen=maxlen)]: once the deque is full the
    oldest item makes room. *)
Definition deque_append {A} (maxlen : nat) (x : A) (d : list A) : list A :=
  if Nat.leb (length (d ++ [x])) maxlen then d ++ [x] else drop 1 (d ++ [x]).

(** [BufferHandler.emit] on [log_buffer = deque(maxlen=500)]; an entry is
    the record handed to the logger (its time stamp is not part of the
    state). *)
Definition BufferHandler_emit {A} (entry : A) (log_buffer : list A) : list A :=
  deque_append 500 entry log_buffer.

(** [log_buffer] after the records [records] went through the handler. *)
Definition log_buffer_after {A} (records : list A) : list A :=
  foldl (fun buffer entry => BufferHandler_emit entry buffer) [] records.

(** [GET /api/logs]: [list(log_buffer)]. *)
Definition get_logs (w : world) : list (level * string) :=
  log_buffer_after (log w).

(** ** The permission check *)

(** [s * n] *)
Fixpoint repeat_str (s : string) (n : nat) : string :=
  match n with
  | O => EmptyString
  | S n' => s +:+ repeat_str s n'
  end.

(** The message printed when the keyboard cannot be driven. *)
Definition PERMISSION_NOTICE : list string :=
  [ repeat_str "=" 60;
    "ACCESSIBILITY PERMISSIONS REQUIRED";
    repeat_str "=" 60;
    "macOS requires accessibility permissions for keyboard control.";
    EmptyString;
    "A system dialog should appear asking for permission.";
    "If not, please manually grant permissions:";
    EmptyString;
    "1. Open System Settings";
    "2. Go to Privacy & Security â†’ Accessibility";
    "3. Add this application and enable it";
    EmptyString;
    "The application will continue to run, but keyboard";
    "control will not work until permissions are granted.";
    repeat_str "=" 60 ].

Fixpoint warn_all (lines : list string) : M unit :=
  match lines with
  | [] => mret tt
  | line :: rest => logger WARNING line;; warn_all rest
  end.

Section Permissions.

Variable E : env.

Definition check_accessibility_permissions : M bool :=
  try_except
    (logger INFO "Checking accessibility permissions...";;
     keyboard_press E (Special Key_shift);;
     keyboard_release E (Special Key_shift);;
     logger INFO "Accessibility permissions granted";;
     mret true)
    (fun e =>
       logger WARNING ("Accessibility permissions check: " +:+ e);;
       warn_all PERMISSION_NOTICE;;
       mret false).

End Permissions.

(** The shortcut table of the configuration, when it holds one. *)
Definition table_of (w : world) : option (gmap string shortcut) :=
  match config w !! "custom_shortcuts" with
  | Some (VShortcuts m) => Some m
  | _ => None
  end.

(** ** Vocabulary of the statements *)

(** An argument as the classification loop reads it: [str(arg).strip()]. *)
Definition token (a : osc_arg) : string := Py.strip (str a).

(** [arg_lower in MODIFIERS] *)
Definition is_modifier (a : osc_arg) : bool :=
  dict_in (Py.lower (token a)) MODIFIERS.

(** The TAB character. *)
Definition tab : string := String "009"%char EmptyString.

(** [w] after more log records, keyboard events and scripts. *)
Definition extend (w : world) (lg : list (level * string))
    (kb : list kb_event) (sc : list string) : world :=
  {| config := config w; osc_server_instance := osc_server_instance w;
     log := log w ++ lg; keyboard := keyboard w ++ kb;
     osascript := osascript w ++ sc; config_file := config_file w |}.

(** [runs c w Q]: from [w], [c] ends with a result [r] after adding the
    log records [lg], the keyboard events [kb] and the scripts [sc], and
    nothing else changes, where [Q r lg kb sc]. *)
Definition runs {A} (c : M A) (w : world)
    (Q : result A -> list (level * string) -> list kb_event -> list string -> Prop)
    : Prop :=
  exists r lg kb sc, c w = (r, extend w lg kb sc) /\ Q r lg kb sc.

(** The four arrow-key names. *)
Definition ARROW_KEYS : list string := ["left"; "right"; "up"; "down"].

Inductive backend : Set := Scripting | Direct.

(** The backend [press_key_combo] takes for a command. *)
Definition select_backend (modifiers : list string) (key : option string) : backend :=
  if use_applescript modifiers key then Scripting else Direct.

(** pynput as the operating system: a string is accepted as a key only
    when it is one character long, otherwise [ValueError(key)]. *)
Definition pynput : env :=
  {| kb_error := fun _ ev =>
       match ev with
       | Press (Char s) | Release (Char s) =>
           if Nat.eqb (String.length s) 1 then None else Some s
       | _ => None
       end;
     run_osascript := fun _ => Exited 0 "";
     write_config := Written;
     bind_error := fun _ _ => None;
     shutdown_error := None |}.

(** The tap of the main key. *)
Definition main_events (mk : option keycode) : list kb_event :=
  match mk with Some k => [Press k; Release k] | None => [] end.

(** The keys obtained from the modifier names the vocabulary knows. *)
Definition known_modifier_keys (modifiers : list string) : list Key :=
  omap (fun name => MODIFIERS !! Py.lower name) modifiers.

(** The keyboard calls of the pynput branch, in program order. *)
Definition events_of (ks : list Key) (mk : option keycode) : list kb_event :=
  map (fun k => Press (Special k)) ks ++ main_events mk
  ++ map (fun k => Release (Special k)) (reverse ks).

(** A sequence of keyboard calls against the operating system, after the
    events [h]: the calls that went through, and the exception that cut
    the sequence short, if any. *)
Fixpoint play (E : env) (h : list kb_event) (evs : list kb_event)
    : list kb_event * option string :=
  match evs with
  | [] => ([], None)
  | ev :: rest =>
      match kb_error E h ev with
      | Some e => ([], Some e)
      | None => let '(sent, err) := play E (h ++ [ev]) rest in (ev :: sent, err)
      end
  end.

(** The calls of [evs] one after the other. *)
Fixpoint emit_all (E : env) (evs : list kb_event) : M unit :=
  match evs with
  | [] => mret tt
  | ev :: rest => keyboard_emit E ev;; emit_all E rest
  end.

Definition outcome (err : option string) : result unit :=
  match err with None => Ok tt | Some e => Raise e end.

(** Whether the script for a command runs and exits with status 0. *)
Definition script_ok (E : env) (modifiers : list string) (k : string) : bool :=
  match run_osascript E (applescript_for modifiers k) with
  | Exited returncode _ => bool_decide (returncode = 0)
  | Aborted _ => false
  end.

(** The ERROR line a failing run of [press_key_combo] ends with, from the
    keyboard history [h]; [None] when the run succeeds. *)
Definition backend_error (E : env) (modifiers : list string) (key : option string)
    (h : list kb_event) : option string :=
  match select_backend modifiers key with
  | Scripting =>
      if script_ok E modifiers (default "" key) then None
      else Some ("AppleScript method failed for /key/["
                 +:+ combo_str modifiers key +:+ "]")
  | Direct =>
      (fun e => "ERROR pressing key combo: " +:+ e) <$>
        (play E h (events_of (known_modifier_keys modifiers) (main_key_of key))).2
  end.

(** The last log record of a run of [press_key_combo]. *)
Definition final_record (E : env) (modifiers : list string) (key : option string)
    (h : list kb_event) : level * string :=
  match backend_error E modifiers key h with
  | None => (INFO, "SUCCESS: /key/[" +:+ combo_str modifiers key +:+ "]")
  | Some line => (ERROR, line)
  end.

(** An operating system on which port 5006 is taken by another process. *)
Definition port_taken : env :=
  {| kb_error := fun _ _ => None;
     run_osascript := fun _ => Exited 0 "";
     write_config := Written;
     bind_error := fun _ port =>
       if port =? 5006 then Some "[Errno 48] Address already in use" else None;
     shutdown_error := None |}.

(** An operating system that refuses ports below 1024 to the process and
    knows no port above 65535. *)
Definition unprivileged : env :=
  {| kb_error := fun _ _ => None;
     run_osascript := fun _ => Exited 0 "";
     write_config := Written;
     bind_error := fun _ port =>
       if port <? 1024 then Some "[Errno 13] Permission denied"
       else if 65535 <? port then Some "bind(): port must be 0-65535."
       else None;
     shutdown_error := None |}.

(** Whether a listener is bound to the configured address. *)
Definition listening (w : world) : bool :=
  match osc_server_instance w with Some _ => true | None => false end.

(** An operating system on which nothing fails. *)
Definition quiet : env :=
  {| kb_error := fun _ _ => None; run_osascript := fun _ => Exited 0 "";
     write_config := Written; bind_error := fun _ _ => None;
     shutdown_error := None |}.

(** The four clauses a script can hold modifiers with. *)
Definition MODIFIER_CLAUSES : list string :=
  ["command down"; "option down"; "control down"; "shift down"].

(** The script for a key code, with its modifier clauses if any. *)
Definition key_code_script (code : Z) (clauses : list string) : string :=
  match clauses with
  | [] =>
      "tell application " +:+ dquote +:+ "System Events" +:+ dquote +:+
      " to key code " +:+ pretty code
  | _ =>
      "tell application " +:+ dquote +:+ "System Events" +:+ dquote +:+
      " to key code " +:+ pretty code +:+
      " using {" +:+ Py.join ", " clauses +:+ "}"
  end.

(** The modifier names the vocabulary does not know, in order. *)
Definition unknown_modifiers (modifiers : list string) : list string :=
  filter (fun name => dict_in (Py.lower name) MODIFIERS = false) modifiers.

(** [CONFIG_FILE] after [save_config] ran on the configuration [cfg]. *)
Definition file_after_save (E : env) (cfg : gmap string value) (f : file_state)
    : file_state :=
  match write_config E with
  | Written => Document cfg
  | OpenFails _ => f
  | DumpFails _ left_over => Unreadable left_over
  end.

(** The record [save_config] logs. *)
Definition save_record (E : env) : level * string :=
  match write_config E with
  | Written => (INFO, "Configuration saved")
  | OpenFails e | DumpFails e _ => (ERROR, "Error saving config: " +:+ e)
  end.

(** [w] with another configuration file and more log records. *)
Definition with_file (w : world) (f : file_state) (lg : list (level * string))
    : world :=
  {| config := config w; osc_server_instance := osc_server_instance w;
     log := log w ++ lg; keyboard := keyboard w; osascript := osascript w;
     config_file := f |}.

(** [w] with another configuration. *)
Definition with_config (w : world) (cfg : gmap string value) : world :=
  {| config := cfg; osc_server_instance := osc_server_instance w;
     log := log w; keyboard := keyboard w; osascript := osascript w;
     config_file := config_file w |}.

(** [w] with more log records. *)
Definition append_log (w : world) (lg : list (level * string)) : world :=
  {| config := config w; osc_server_instance := osc_server_instance w;
     log := log w ++ lg; keyboard := keyboard w; osascript := osascript w;
     config_file := config_file w |}.

(** [w] with another listener. *)
Definition with_server (w : world) (s : option server) : world :=
  {| config := config w; osc_server_instance := s;
     log := log w; keyboard := keyboard w; osascript := osascript w;
     config_file := config_file w |}.

(** The address [start_osc_server] reads from a configuration. *)
Definition bind_ip (cfg : gmap string value) : value :=
  default (VStr "127.0.0.1") (cfg !! "osc_ip").

Definition bind_port (cfg : gmap string value) : value :=
  default (VInt 5005) (cfg !! "osc_port").

(** The configuration after [update_osc_config] stored the request. *)
Definition updated_config (data cfg : gmap string value) : gmap string value :=
  <["osc_port" := bind_port data]> (<["osc_ip" := bind_ip data]> cfg).

(** The configuration with another shortcut table. *)
Definition with_table (cfg : gmap string value) (m : gmap string shortcut)
    : gmap string value :=
  <["custom_shortcuts" := VShortcuts m]> cfg.

(** The three top-level keys are present. *)
Definition has_default_keys (cfg : gmap string value) : Prop :=
  forall k, is_Some (DEFAULT_CONFIG !! k) -> is_Some (cfg !! k).

(** * Properties *)

(** ** Worlds *)

Lemma extend_nil (w : world) : extend w [] [] [] = w.
Proof. destruct w. unfold extend. simpl. rewrite !app_nil_r. reflexivity. Qed.

Lemma extend_extend (w : world) lg kb sc lg' kb' sc' :
  extend (extend w lg kb sc) lg' kb' sc' = extend w (lg ++ lg') (kb ++ kb') (sc ++ sc').
Proof. unfold extend. simpl. rewrite <- !app_assoc. reflexivity. Qed.

Lemma logger_run (l : level) (msg : string) (w : world) :
  logger l msg w = (Ok tt, extend w [(l, msg)] [] []).
Proof. unfold logger, extend. rewrite !app_nil_r. reflexivity. Qed.

(** ** Resolver *)

Lemma classify_modifiers_only (pre : list osc_arg) :
  Forall (fun a => is_modifier a = true) pre ->
  classify pre = (map token pre, None).
Proof.
  induction 1 as [|a pre Ha _ IH]; [reflexivity|].
  simpl. unfold is_modifier, token in Ha. rewrite Ha, IH. reflexivity.
Qed.

Lemma classify_stops_at_key (pre : list osc_arg) (t : osc_arg) (rest : list osc_arg) :
  Forall (fun a => is_modifier a = true) pre ->
  is_modifier t = false ->
  classify (pre ++ t :: rest) = (map token pre, Some (token t)).
Proof.
  intros Hpre Ht. induction Hpre as [|a pre Ha _ IH]; simpl.
  - unfold is_modifier, token in Ht. rewrite Ht. reflexivity.
  - unfold is_modifier, token in Ha. rewrite Ha, IH. reflexivity.
Qed.

Lemma resolve_table_hit (shortcuts : gmap string shortcut) address sc args :
  shortcuts !! address = Some sc ->
  resolve shortcuts address args = resolve_entry sc.
Proof. intros H. unfold resolve. rewrite H. reflexivity. Qed.

Lemma resolve_table_miss (shortcuts : gmap string shortcut) address args :
  shortcuts !! address = None ->
  resolve shortcuts address args =
    match args_or_address address args with
    | None => NoArguments
    | Some args' => finish (classify (split_single args'))
    end.
Proof. intros H. unfold resolve. rewrite H. reflexivity. Qed.

(** [handle_keypress] is [resolve] followed by [perform]. *)
Lemma handle_keypress_resolve (E : env) (w : world)
    (shortcuts : gmap string shortcut) address args :
  config w !! "custom_shortcuts" = Some (VShortcuts shortcuts) ->
  handle_keypress E address args w = perform E address (resolve shortcuts address args) w.
Proof.
  intros Hcfg.
  unfold handle_keypress, lookup_shortcut, resolve, mbind, M_bind, get_config.
  rewrite Hcfg. unfold mret, M_ret.
  destruct (shortcuts !! address) as [sc|]; [reflexivity|].
  destruct (args_or_address address args) as [args'|]; [|reflexivity].
  unfold finish. destruct (classify (split_single args')) as [modifiers key].
  destruct (Py.truthy_opt key || bool_decide (modifiers ≠ [])); reflexivity.
Qed.





(** C1. An address with an exact entry in the shortcut table resolves, for
    every argument list whatsoever, to the modifiers and key configured in
    that entry: the arguments are ignored and neither the prefix fallback
    nor the argument classification is consulted. [handle_keypress] then
    logs the reception and calls [press_key_combo] on exactly that pair. *)
Theorem exact_entry_takes_precedence
    (E : env) (w : world) (shortcuts : gmap string shortcut)
    (A : string) (sc : shortcut) (args : list osc_arg) :
  config w !! "custom_shortcuts" = Some (VShortcuts shortcuts) ->
  shortcuts !! A = Some sc ->
  let mods := default [] (sc_modifiers sc) in
  resolve shortcuts A args = Shortcut mods (sc_key sc) (default "" (sc_description sc))
  /\ resolve shortcuts A args = resolve shortcuts A []
  /\ exists line,
       handle_keypress E A args w =
         (logger INFO line;; press_key_combo E (Some mods) (sc_key sc);; mret tt) w.
Proof.
  intros Hcfg Hsc mods. split; [|split].
  - apply resolve_table_hit, Hsc.
  - rewrite !(resolve_table_hit _ _ sc) by assumption. reflexivity.
  - rewrite (handle_keypress_resolve E w shortcuts) by assumption.
    rewrite (resolve_table_hit _ _ sc) by assumption.
    unfold resolve_entry, perform. fold mods.
    destruct (Py.truthy (default "" (sc_description sc))); eexists; reflexivity.
Qed.

Lemma exact_entry_takes_precedence_witness :
  resolve DEFAULT_SHORTCUTS "/key/redo" [ArgStr "option"; ArgStr "q"; ArgNum "3"]
  = Shortcut ["command"; "shift"] (Some "z") "Redo".
Proof.
  apply (exact_entry_takes_precedence quiet (initial_world Missing)
           DEFAULT_SHORTCUTS "/key/redo"
           {| sc_modifiers := Some ["command"; "shift"]; sc_key := Some "z";
              sc_description := Some "Redo" |}
           [ArgStr "option"; ArgStr "q"; ArgNum "3"]); reflexivity.
Defined.

(** C6. Heuristic classification examines the tokens in order, each
    trimmed and compared case-insensitively with the modifier aliases:
    the leading tokens that are aliases are all accumulated as modifiers,
    the first token that is not an alias becomes the key, and the tokens
    after it are ignored. For an address outside the table, the arguments
    command, shift, z, extra resolve to modifiers command, shift and
    key z. *)
Theorem classification_first_non_modifier_wins
    (shortcuts : gmap string shortcut) (address : string)
    (pre : list osc_arg) (t : osc_arg) (rest : list osc_arg) :
  shortcuts !! address = None ->
  Forall (fun a => is_modifier a = true) pre ->
  is_modifier t = false ->
  classify (pre ++ t :: rest) = (map token pre, Some (token t))
  /\ classify (pre ++ t :: rest) = classify (pre ++ [t])
  /\ classify pre = (map token pre, None)
  /\ resolve shortcuts address
       [ArgStr "command"; ArgStr "shift"; ArgStr "z"; ArgStr "extra"]
     = Parsed ["command"; "shift"] (Some "z")
  /\ resolve shortcuts address [ArgStr "command"; ArgStr "shift"; ArgStr "z"]
     = Parsed ["command"; "shift"] (Some "z").
Proof.
  intros Hmiss Hpre Ht. repeat split.
  - apply classify_stops_at_key; assumption.
  - rewrite !classify_stops_at_key by assumption. reflexivity.
  - apply classify_modifiers_only, Hpre.
  - rewrite resolve_table_miss by assumption. reflexivity.
  - rewrite resolve_table_miss by assumption. reflexivity.
Qed.

Lemma classification_first_non_modifier_wins_witness :
  classify [ArgStr " CMD "; ArgStr "Shift"; ArgStr "z"; ArgStr "extra"]
  = ([ "CMD"; "Shift" ], Some "z").
Proof.
  apply (classification_first_non_modifier_wins DEFAULT_SHORTCUTS "/key/foo"
           [ArgStr " CMD "; ArgStr "Shift"] (ArgStr "z") [ArgStr "extra"]).
  - reflexivity.
  - repeat constructor.
  - reflexivity.
Defined.

(** C7, as stated, fails: the rest of the address is trimmed before it is
    used. For [/key/a<TAB>b<SPACE>] the rest holds a space, so as an
    argument of its own it would be split and give the key [a]; the code
    trims it first, finds no space left, and takes the key [a<TAB>b]. *)
Lemma untrimmed_remainder_counterexample :
  let address := "/key/a" +:+ tab +:+ "b " in
  let remainder := Py.slice_from 5 address in
  Py.startswith address "/key/" = true
  /\ DEFAULT_SHORTCUTS !! address = None
  /\ remainder <> ""
  /\ resolve DEFAULT_SHORTCUTS address [] = Parsed [] (Some ("a" +:+ tab +:+ "b"))
  /\ resolve DEFAULT_SHORTCUTS address [ArgStr remainder] = Parsed [] (Some "a")
  /\ resolve DEFAULT_SHORTCUTS address []
     <> resolve DEFAULT_SHORTCUTS address [ArgStr remainder].
Proof. vm_compute. repeat split; congruence. Qed.

(** A rest of the address that is only whitespace counts as empty: the
    exit is the one for missing arguments, not the one a blank argument
    takes. *)
Lemma whitespace_remainder_is_rejected :
  Py.slice_from 5 "/key/ " = " "
  /\ resolve DEFAULT_SHORTCUTS "/key/ " [] = NoArguments
  /\ resolve DEFAULT_SHORTCUTS "/key/ " [ArgStr " "] = NoValidKey.
Proof. vm_compute. repeat split. Qed.

(** C7, amended. For an address outside the table and an empty argument
    list: when the address starts with [/key/] and the rest of it, trimmed
    of surrounding whitespace, is not empty, that trimmed rest is the
    single argument the resolution continues with; in every other case
    (no such prefix, or a rest that is empty or only whitespace)
    [handle_keypress] logs the "No arguments provided" warning and touches
    neither the keyboard nor the scripting backend. With a non-empty
    argument list the address is not consulted. [/key/down] without
    arguments resolves to no modifiers and key [down]. *)
Theorem reserved_prefix_fallback
    (E : env) (w : world) (shortcuts : gmap string shortcut) (address : string) :
  config w !! "custom_shortcuts" = Some (VShortcuts shortcuts) ->
  shortcuts !! address = None ->
  let remainder := Py.strip (Py.slice_from 5 address) in
  let fires := Py.startswith address "/key/" && Py.truthy remainder in
  resolve shortcuts address [] =
    (if fires then resolve shortcuts address [ArgStr remainder] else NoArguments)
  /\ handle_keypress E address [] w =
       (if fires then handle_keypress E address [ArgStr remainder] w
        else (Ok tt,
              extend w [(WARNING, "OSC RECEIVED: " +:+ address
                                  +:+ " -> No arguments provided")] [] []))
  /\ (forall a args,
        resolve shortcuts address (a :: args) =
          finish (classify (split_single (a :: args))))
  /\ (address = "/key/down" -> resolve shortcuts address [] = Parsed [] (Some "down")).
Proof.
  intros Hcfg Hmiss remainder fires.
  assert (Hres : resolve shortcuts address [] =
            (if fires then resolve shortcuts address [ArgStr remainder]
             else NoArguments)).
  { rewrite !resolve_table_miss by assumption. subst fires remainder.
    unfold args_or_address.
    destruct (Py.startswith address "/key/"); [|reflexivity].
    destruct (Py.truthy _); reflexivity. }
  split; [exact Hres|]. split; [|split].
  - rewrite (handle_keypress_resolve E w shortcuts address []) by assumption.
    rewrite Hres. destruct fires; [|apply logger_run].
    rewrite (handle_keypress_resolve E w shortcuts) by assumption. reflexivity.
  - intros a args. rewrite resolve_table_miss by assumption. reflexivity.
  - intros ->. rewrite resolve_table_miss by assumption. reflexivity.
Qed.

Lemma reserved_prefix_fallback_witness :
  resolve DEFAULT_SHORTCUTS "/key/down" [] = Parsed [] (Some "down").
Proof.
  apply (reserved_prefix_fallback quiet (initial_world Missing)
           DEFAULT_SHORTCUTS "/key/down"); reflexivity.
Defined.




(** ** Executor *)

Section Runs.

Context {A B : Type}.

Lemma runs_ret (a : A) (w : world) Q :
  Q (Ok a) [] [] [] -> runs (mret a) w Q.
Proof. intros HQ. exists (Ok a), [], [], []. rewrite extend_nil. auto. Qed.

Lemma runs_raise (e : string) (w : world) Q :
  Q (Raise e) [] [] [] -> runs (raise (A := A) e) w Q.
Proof. intros HQ. exists (Raise e), [], [], []. rewrite extend_nil. auto. Qed.

Lemma runs_weaken (c : M A) (w : world) (Q Q' : _ -> _ -> _ -> _ -> Prop) :
  runs c w Q -> (forall r lg kb sc, Q r lg kb sc -> Q' r lg kb sc) -> runs c w Q'.
Proof. intros (r & lg & kb & sc & Hrun & HQ) Himp. exists r, lg, kb, sc. auto. Qed.

Lemma runs_bind (c : M A) (f : A -> M B) (w : world) Q1 Q :
  runs c w Q1 ->
  (forall e lg kb sc, Q1 (Raise e) lg kb sc -> Q (Raise e) lg kb sc) ->
  (forall a lg kb sc, Q1 (Ok a) lg kb sc ->
     runs (f a) (extend w lg kb sc)
       (fun r lg' kb' sc' => Q r (lg ++ lg') (kb ++ kb') (sc ++ sc'))) ->
  runs (c ≫= f) w Q.
Proof.
  intros (r & lg & kb & sc & Hrun & HQ1) Hraise Hok.
  unfold runs, mbind, M_bind. rewrite Hrun. destruct r as [a|e].
  - destruct (Hok a lg kb sc HQ1) as (r' & lg' & kb' & sc' & Hrun' & HQ).
    rewrite Hrun', extend_extend. exists r', (lg ++ lg'), (kb ++ kb'), (sc ++ sc').
    auto.
  - exists (Raise e), lg, kb, sc. auto.
Qed.

End Runs.

Lemma runs_try {A} (body : M A) (handler : string -> M A) (w : world) Q1 Q :
  runs body w Q1 ->
  (forall a lg kb sc, Q1 (Ok a) lg kb sc -> Q (Ok a) lg kb sc) ->
  (forall e lg kb sc, Q1 (Raise e) lg kb sc ->
     runs (handler e) (extend w lg kb sc)
       (fun r lg' kb' sc' => Q r (lg ++ lg') (kb ++ kb') (sc ++ sc'))) ->
  runs (try_except body handler) w Q.
Proof.
  intros (r & lg & kb & sc & Hrun & HQ1) Hok Hraise.
  unfold runs, try_except. rewrite Hrun. destruct r as [a|e].
  - exists (Ok a), lg, kb, sc. auto.
  - destruct (Hraise e lg kb sc HQ1) as (r' & lg' & kb' & sc' & Hrun' & HQ).
    rewrite Hrun', extend_extend. exists r', (lg ++ lg'), (kb ++ kb'), (sc ++ sc').
    auto.
Qed.

Lemma runs_logger (l : level) (msg : string) (w : world) Q :
  Q (Ok tt) [(l, msg)] [] [] -> runs (logger l msg) w Q.
Proof. intros HQ. exists (Ok tt), [(l, msg)], [], []. rewrite logger_run. auto. Qed.

(** [logger l msg;; c] *)
Lemma runs_log_then {A} (l : level) (msg : string) (c : M A) (w : world) Q :
  runs c (extend w [(l, msg)] [] []) (fun r lg kb sc => Q r ((l, msg) :: lg) kb sc) ->
  runs (logger l msg;; c) w Q.
Proof.
  intros Hc.
  apply (runs_bind _ _ _
           (fun r lg kb sc => r = Ok tt /\ lg = [(l, msg)] /\ kb = [] /\ sc = [])).
  - apply runs_logger. auto.
  - intros e lg kb sc (Hr & _). discriminate Hr.
  - intros [] lg kb sc (_ & -> & -> & ->). exact Hc.
Qed.

Section ExecutorFacts.

Variable E : env.

Lemma runs_subprocess (script : string) (w : world) Q :
  (forall rc err, run_osascript E script = Exited rc err ->
     Q (Ok (rc, err)) [] [] [script]) ->
  (forall e, run_osascript E script = Aborted e -> Q (Raise e) [] [] [script]) ->
  runs (subprocess_run E script) w Q.
Proof.
  intros Hok Hraise. unfold runs, subprocess_run.
  assert (Hw : {| config := config w; osc_server_instance := osc_server_instance w;
                  log := log w; keyboard := keyboard w;
                  osascript := osascript w ++ [script];
                  config_file := config_file w |} = extend w [] [] [script]).
  { unfold extend. rewrite !app_nil_r. reflexivity. }
  rewrite Hw. destruct (run_osascript E script) as [rc err|e] eqn:Hrun.
  - exists (Ok (rc, err)), [], [], [script]. auto.
  - exists (Raise e), [], [], [script]. auto.
Qed.

Lemma keyboard_emit_run (ev : kb_event) (w : world) :
  keyboard_emit E ev w =
    match kb_error E (keyboard w) ev with
    | Some e => (Raise e, w)
    | None => (Ok tt, extend w [] [ev] [])
    end.
Proof.
  unfold keyboard_emit, extend.
  destruct (kb_error E (keyboard w) ev); [reflexivity|].
  rewrite !app_nil_r. reflexivity.
Qed.

(** [emit_all] is [play]: the calls go through until the first one that
    raises, and the rest is never made. *)
Lemma emit_all_play (evs : list kb_event) (w : world) :
  emit_all E evs w =
    (outcome (play E (keyboard w) evs).2, extend w [] (play E (keyboard w) evs).1 []).
Proof.
  revert w. induction evs as [|ev rest IH]; intros w; simpl.
  - rewrite extend_nil. reflexivity.
  - unfold mbind, M_bind. rewrite keyboard_emit_run.
    destruct (kb_error E (keyboard w) ev) as [e|]; simpl.
    + rewrite extend_nil. reflexivity.
    + rewrite IH. simpl. rewrite extend_extend.
      destruct (play E (keyboard w ++ [ev]) rest) as [sent err]. reflexivity.
Qed.

Lemma emit_all_app (evs1 evs2 : list kb_event) (w : world) :
  emit_all E (evs1 ++ evs2) w = (emit_all E evs1;; emit_all E evs2) w.
Proof.
  revert w. induction evs1 as [|ev rest IH]; intros w; simpl; [reflexivity|].
  unfold mbind, M_bind in *.
  destruct (keyboard_emit E ev w) as [[[]|e] w1]; [apply IH|reflexivity].
Qed.

Lemma press_all_emit (ks : list Key) :
  press_all E ks = emit_all E (map (fun k => Press (Special k)) ks).
Proof. induction ks as [|k ks IH]; simpl; [reflexivity|]. rewrite IH. reflexivity. Qed.

Lemma release_all_emit (ks : list Key) :
  release_all E ks = emit_all E (map (fun k => Release (Special k)) ks).
Proof. induction ks as [|k ks IH]; simpl; [reflexivity|]. rewrite IH. reflexivity. Qed.

(** The pynput branch is the sequence [events_of] played in order. *)
Lemma direct_backend_emit (ks : list Key) (mk : option keycode) (w : world) :
  direct_backend E ks mk w = emit_all E (events_of ks mk) w.
Proof.
  unfold direct_backend, events_of.
  rewrite emit_all_app, press_all_emit, release_all_emit.
  unfold sleep, mbind, M_bind, mret, M_ret.
  destruct (emit_all E (map (fun k => Press (Special k)) ks) w) as [[[]|e] w1];
    [|reflexivity].
  rewrite emit_all_app. unfold mbind, M_bind.
  destruct mk as [k|]; simpl; [|reflexivity].
  unfold keyboard_press, keyboard_release, mbind, M_bind.
  destruct (keyboard_emit E (Press k) w1) as [[[]|e] w2]; [|reflexivity].
  destruct (keyboard_emit E (Release k) w2) as [[[]|e] w3]; reflexivity.
Qed.

Lemma direct_backend_runs (ks : list Key) (mk : option keycode) (w : world)
    (h : list kb_event) :
  keyboard w = h ->
  runs (direct_backend E ks mk) w
    (fun r lg kb sc =>
       r = outcome (play E h (events_of ks mk)).2
       /\ lg = [] /\ kb = (play E h (events_of ks mk)).1 /\ sc = []).
Proof.
  intros <-. unfold runs. rewrite direct_backend_emit, emit_all_play. eauto 10.
Qed.

(** The scripting branch runs exactly one script, leaves the keyboard
    alone, never raises, and answers whether the script exited with 0. *)
Lemma press_key_with_applescript_runs
    (modifiers : list string) (k : string) (w : world) :
  runs (press_key_with_applescript E modifiers (Some k)) w
    (fun r lg kb sc =>
       r = Ok (script_ok E modifiers k) /\ kb = []
       /\ sc = [applescript_for modifiers k]).
Proof.
  unfold press_key_with_applescript, script_ok.
  apply (runs_try _ _ _
           (fun r lg kb sc =>
              kb = [] /\ sc = [applescript_for modifiers k]
              /\ match r with
                 | Ok b => b = script_ok E modifiers k
                 | Raise e => run_osascript E (applescript_for modifiers k) = Aborted e
                 end)).
  - apply (runs_bind _ _ _
             (fun r lg kb sc =>
                lg = [] /\ kb = [] /\ sc = [applescript_for modifiers k]
                /\ match r with
                   | Ok (rc, err) =>
                       run_osascript E (applescript_for modifiers k) = Exited rc err
                   | Raise e =>
                       run_osascript E (applescript_for modifiers k) = Aborted e
                   end)).
    + apply runs_subprocess; auto.
    + intros e lg kb sc (_ & -> & -> & Hrun). auto.
    + intros [rc err] lg kb sc (-> & -> & -> & Hrun).
      unfold script_ok. rewrite Hrun.
      destruct (decide (rc = 0)) as [Hrc|Hrc].
      * rewrite (bool_decide_eq_false_2 (rc <> 0)) by tauto.
        rewrite (bool_decide_eq_true_2 (rc = 0)) by assumption.
        apply runs_ret. auto.
      * rewrite (bool_decide_eq_true_2 (rc <> 0)) by assumption.
        rewrite (bool_decide_eq_false_2 (rc = 0)) by assumption.
        apply runs_log_then, runs_ret. auto.
  - intros b lg kb sc (-> & -> & ->). auto.
  - intros e lg kb sc (-> & -> & Hrun). apply runs_log_then, runs_ret.
    unfold script_ok. rewrite Hrun. auto.
Qed.

End ExecutorFacts.

(** The conversion loop only logs, never raises, and yields the keys of
    the known names in order. *)
Lemma modifier_keys_of_runs (modifiers : list string) (w : world) :
  runs (modifier_keys_of modifiers) w
    (fun r lg kb sc => r = Ok (known_modifier_keys modifiers) /\ kb = [] /\ sc = []).
Proof.
  revert w. induction modifiers as [|name rest IH]; intros w; simpl.
  - apply runs_ret. auto.
  - unfold known_modifier_keys. simpl. fold (known_modifier_keys rest).
    destruct (MODIFIERS !! Py.lower name) as [k|]; simpl.
    + eapply runs_bind; [apply IH| |].
      * intros e lg kb sc (Hr & _). discriminate Hr.
      * intros ks lg kb sc (Hr & -> & ->). injection Hr as ->.
        apply runs_ret. auto.
    + apply runs_log_then. eapply runs_weaken; [apply IH|]. simpl.
      intros r lg kb sc (Hr & -> & ->). auto.
Qed.

Lemma dict_in_arrow_codes (s : string) :
  dict_in s APPLESCRIPT_KEY_CODES = true <-> s ∈ ARROW_KEYS.
Proof.
  unfold dict_in. rewrite bool_decide_eq_true, <- elem_of_dom.
  unfold APPLESCRIPT_KEY_CODES, ARROW_KEYS. rewrite dom_list_to_map_L. simpl.
  rewrite !elem_of_union, !elem_of_singleton, elem_of_empty.
  rewrite !elem_of_cons, elem_of_nil. tauto.
Qed.

Lemma use_applescript_spec (modifiers : list string) (key : option string) :
  use_applescript modifiers key = true <->
  (exists k, key = Some k /\ Py.lower k ∈ ARROW_KEYS) /\ modifiers <> [].
Proof.
  unfold use_applescript. rewrite andb_true_iff, bool_decide_eq_true.
  apply and_iff_compat_r. destruct key as [k|]; simpl.
  - destruct k as [|c k]; simpl.
    + split; [discriminate|]. intros (k' & Hk & Hin). injection Hk as <-.
      revert Hin. unfold ARROW_KEYS. simpl.
      rewrite !elem_of_cons, elem_of_nil. intuition discriminate.
    + rewrite dict_in_arrow_codes. split; [eauto|].
      intros (k' & Hk & Hin). injection Hk as <-. exact Hin.
  - split; [discriminate|]. intros (k' & Hk & _). discriminate Hk.
Qed.

Lemma select_backend_spec (modifiers : list string) (key : option string) :
  select_backend modifiers key = Scripting <->
  (exists k, key = Some k /\ Py.lower k ∈ ARROW_KEYS) /\ modifiers <> [].
Proof.
  rewrite <- use_applescript_spec. unfold select_backend.
  destruct (use_applescript modifiers key); split; congruence.
Qed.

(** Every run of [press_key_combo], whatever the operating system
    answers: no exception leaves it, the value handed back is [None], one
    backend is used, the keyboard receives the calls of the direct backend
    up to the first that raises, and the last log record tells how it
    went. *)
Lemma press_key_combo_runs (E : env)
    (modifiers : option (list string)) (key : option string) (w : world) :
  let mods := default [] modifiers in
  runs (press_key_combo E modifiers key) w
    (fun r lg kb sc =>
       r = Ok PyNone
       /\ last lg = Some (final_record E mods key (keyboard w))
       /\ match select_backend mods key with
          | Scripting => kb = [] /\ sc = [applescript_for mods (default "" key)]
          | Direct =>
              kb = (play E (keyboard w)
                      (events_of (known_modifier_keys mods) (main_key_of key))).1
              /\ sc = []
          end).
Proof.
  intros mods. unfold press_key_combo. fold mods.
  unfold final_record, backend_error, select_backend.
  set (combo := combo_str mods key).
  set (evs := events_of (known_modifier_keys mods) (main_key_of key)).
  apply (runs_bind _ _ _
           (fun r lg kb sc => r = Ok (known_modifier_keys mods) /\ kb = [] /\ sc = []));
    [apply modifier_keys_of_runs| |].
  { intros e lg kb sc (Hr & _). discriminate Hr. }
  intros ks lg0 kb0 sc0 (Hks & -> & ->). injection Hks as ->. simpl.
  destruct (use_applescript mods key) eqn:Hua.
  - apply use_applescript_spec in Hua as [(k & Hk & _) _]. rewrite Hk. simpl.
    apply (runs_try _ _ _
             (fun r lg kb sc =>
                r = Ok PyNone /\ kb = [] /\ sc = [applescript_for mods k]
                /\ exists lg', lg = lg' ++
                     [if script_ok E mods k
                      then (INFO, "SUCCESS: /key/[" +:+ combo +:+ "]")
                      else (ERROR, "AppleScript method failed for /key/["
                                   +:+ combo +:+ "]")])).
    + do 2 apply runs_log_then.
      apply (runs_bind _ _ _
               (fun r lg kb sc =>
                  r = Ok (script_ok E mods k) /\ kb = []
                  /\ sc = [applescript_for mods k]));
        [apply press_key_with_applescript_runs| |].
      { intros e lg kb sc (Hr & _). discriminate Hr. }
      intros b lg kb sc (Hb & -> & ->). injection Hb as ->.
      apply (runs_bind _ _ _
               (fun r lg' kb' sc' =>
                  r = Ok tt /\ kb' = [] /\ sc' = []
                  /\ lg' = [if script_ok E mods k
                            then (INFO, "SUCCESS: /key/[" +:+ combo +:+ "]")
                            else (ERROR, "AppleScript method failed for /key/["
                                         +:+ combo +:+ "]")])).
      * destruct (script_ok E mods k); apply runs_logger; auto.
      * intros e lg' kb' sc' (Hr & _). discriminate Hr.
      * intros [] lg' kb' sc' (_ & -> & -> & ->).
        apply runs_ret. simpl. repeat split.
        eexists (_ :: _ :: lg). reflexivity.
    + intros v lg kb sc (Hr & -> & -> & lg' & ->). injection Hr as ->.
      repeat split. rewrite app_assoc, last_snoc.
      destruct (script_ok E mods k); reflexivity.
    + intros e lg kb sc (Hr & _). discriminate Hr.
  - apply (runs_try _ _ _
             (fun r lg kb sc =>
                kb = (play E (keyboard w) evs).1 /\ sc = []
                /\ match (play E (keyboard w) evs).2, r with
                   | None, Ok v =>
                       v = PyNone
                       /\ exists lg', lg = lg' ++
                            [(INFO, "SUCCESS: /key/[" +:+ combo +:+ "]")]
                   | Some e, Raise e' => e' = e
                   | _, _ => False
                   end)).
    + apply runs_log_then.
      eapply runs_bind;
        [apply (direct_backend_runs _ _ _ _ (keyboard w)); simpl;
         rewrite !app_nil_r; reflexivity| |]; simpl; fold evs.
      * intros e lg kb sc (Hr & -> & -> & ->).
        destruct (play E (keyboard w) evs).2; simpl in Hr; [|discriminate Hr].
        injection Hr as ->. auto.
      * intros [] lg kb sc (Hr & -> & -> & ->).
        destruct (play E (keyboard w) evs).2 eqn:Herr; simpl in Hr;
          [discriminate Hr|].
        apply runs_log_then, runs_ret. rewrite !app_nil_r.
        repeat split. eexists [_]. reflexivity.
    + intros v lg kb sc (-> & -> & Hr).
      destruct (play E (keyboard w) evs).2; [destruct Hr|].
      destruct Hr as (-> & lg' & ->).
      repeat split. rewrite app_assoc. apply last_snoc.
    + intros e lg kb sc (-> & -> & Hr).
      destruct (play E (keyboard w) evs).2 as [e'|]; [subst e|destruct Hr].
      apply runs_log_then, runs_ret. rewrite !app_nil_r. repeat split.
      simpl. rewrite app_assoc. apply last_snoc.
Qed.

(** On the direct backend the keyboard receives the calls of [events_of]
    in order, up to the first that raises. *)
Lemma press_key_combo_direct_trace (E : env)
    (modifiers : option (list string)) (key : option string) (w : world) :
  select_backend (default [] modifiers) key = Direct ->
  keyboard (press_key_combo E modifiers key w).2 =
    keyboard w ++
    (play E (keyboard w)
       (events_of (known_modifier_keys (default [] modifiers)) (main_key_of key))).1.
Proof.
  intros Hsel.
  destruct (press_key_combo_runs E modifiers key w)
    as (r & lg & kb & sc & Hrun & _ & _ & Hkb).
  rewrite Hsel in Hkb. destruct Hkb as [-> _]. rewrite Hrun. reflexivity.
Qed.

Lemma play_all (E : env) (h evs : list kb_event) :
  (forall h' ev, kb_error E h' ev = None) -> play E h evs = (evs, None).
Proof.
  intros Hkb. revert h. induction evs as [|ev rest IH]; intros h; simpl.
  - reflexivity.
  - rewrite Hkb, IH. reflexivity.
Qed.

(** Success path of [press_key_combo] on the direct backend: when no
    keyboard call raises, the modifiers go down in table order, the main
    key is tapped, and every modifier that was pressed is released exactly
    once, in the reverse of the press order. *)
Lemma press_key_combo_direct_success (E : env)
    (modifiers : option (list string)) (key : option string) (w : world) :
  (forall h ev, kb_error E h ev = None) ->
  select_backend (default [] modifiers) key = Direct ->
  let ks := known_modifier_keys (default [] modifiers) in
  keyboard (press_key_combo E modifiers key w).2 =
    keyboard w ++ map (fun k => Press (Special k)) ks
      ++ main_events (main_key_of key)
      ++ map (fun k => Release (Special k)) (reverse ks).
Proof.
  intros Hkb Hsel ks.
  rewrite press_key_combo_direct_trace by assumption.
  rewrite play_all by assumption. reflexivity.
Qed.

Lemma play_presses (E : env) (h : list kb_event) (ks : list Key)
    (rest : list kb_event) :
  (forall h' k, kb_error E h' (Press (Special k)) = None) ->
  play E h (map (fun k => Press (Special k)) ks ++ rest) =
    (map (fun k => Press (Special k)) ks
       ++ (play E (h ++ map (fun k => Press (Special k)) ks) rest).1,
     (play E (h ++ map (fun k => Press (Special k)) ks) rest).2).
Proof.
  intros Hkb. revert h. induction ks as [|k ks IH]; intros h; simpl.
  - rewrite app_nil_r. destruct (play E h rest). reflexivity.
  - rewrite Hkb, IH, <- app_assoc. reflexivity.
Qed.

(** Failure path of [press_key_combo] on the direct backend: when the
    modifiers go down and the press of the main key raises, the trace ends
    with the modifier presses; none of them is released. *)
Lemma press_key_combo_main_key_failure (E : env)
    (modifiers : option (list string)) (key : option string) (w : world)
    (mk : keycode) (e : string) :
  select_backend (default [] modifiers) key = Direct ->
  main_key_of key = Some mk ->
  (forall h k, kb_error E h (Press (Special k)) = None) ->
  (forall h, kb_error E h (Press mk) = Some e) ->
  keyboard (press_key_combo E modifiers key w).2 =
    keyboard w ++ map (fun k => Press (Special k))
                      (known_modifier_keys (default [] modifiers)).
Proof.
  intros Hsel Hmk Hmods Hmain.
  rewrite press_key_combo_direct_trace by assumption.
  unfold events_of. rewrite play_presses by assumption.
  rewrite Hmk. simpl. rewrite Hmain. simpl. rewrite app_nil_r. reflexivity.
Qed.

(** C2: the failure path of the pynput branch leaves modifiers pressed.
    With the arguments command, shift, ab the two modifiers go down, pynput
    refuses the two-character key, the handler logs the error, and no
    release is ever sent; the OSC message [/key command shift ab] leads
    there. *)
Theorem failed_combo_leaves_modifiers_pressed :
  let run := press_key_combo pynput (Some ["command"; "shift"]) (Some "ab")
               (initial_world Missing) in
  let received := handle_keypress pynput "/key"
                    [ArgStr "command"; ArgStr "shift"; ArgStr "ab"]
                    (initial_world Missing) in
  run.1 = Ok PyNone
  /\ keyboard run.2 = [Press (Special Key_cmd); Press (Special Key_shift)]
  /\ last (log run.2) = Some (ERROR, "ERROR pressing key combo: ab")
  /\ keyboard received.2 = [Press (Special Key_cmd); Press (Special Key_shift)].
Proof. vm_compute. repeat split. Qed.

(** C4, as stated, fails: a keystroke that went through hands back
    [None], not [True]. *)
Lemma successful_combo_returns_none_counterexample :
  let run := press_key_combo pynput (Some ["command"]) (Some "s")
               (initial_world Missing) in
  run.1 = Ok PyNone
  /\ run.1 <> Ok (PyBool true)
  /\ keyboard run.2 = [Press (Special Key_cmd); Press (Char "s");
                       Release (Char "s"); Release (Special Key_cmd)]
  /\ last (log run.2) = Some (INFO, "SUCCESS: /key/[Command+S]").
Proof. vm_compute. repeat split. discriminate. Qed.

(** C4, amended. Every call of [press_key_combo] hands back [None],
    whether the keystroke went through or not, and no exception reaches
    the caller: an exception raised by a keyboard call, or a script that
    does not run to exit status 0, is caught and shows only in the log,
    whose last record is then an ERROR line; otherwise the last record is
    the SUCCESS line of the command. *)
Theorem press_key_combo_returns_none
    (E : env) (modifiers : option (list string)) (key : option string) (w : world) :
  let mods := default [] modifiers in
  exists w',
    press_key_combo E modifiers key w = (Ok PyNone, w')
    /\ last (log w') =
         Some match backend_error E mods key (keyboard w) with
              | None => (INFO, "SUCCESS: /key/[" +:+ combo_str mods key +:+ "]")
              | Some line => (ERROR, line)
              end.
Proof.
  intros mods.
  destruct (press_key_combo_runs E modifiers key w)
    as (r & lg & kb & sc & Hrun & -> & Hlast & _).
  exists (extend w lg kb sc). split; [exact Hrun|].
  apply last_Some in Hlast as [lg' ->]. simpl.
  rewrite app_assoc. apply last_snoc.
Qed.


(** ** Listener and configuration *)

(** [restart_osc_server] answers [True] as soon as the old listener
    stopped without an exception; the fate of the new one plays no part. *)
Lemma restart_ignores_bind (E : env) (w : world) :
  shutdown_error E = None ->
  (restart_osc_server E w).1 = Ok true.
Proof.
  intros Hstop.
  unfold restart_osc_server, try_except, mbind, M_bind, get_server, stop_server,
    thread_start, sleep, mret, M_ret, set_server, logger.
  rewrite Hstop. destruct (osc_server_instance w); reflexivity.
Qed.

(** C3: a failed bind is reported as success. A listener runs on the
    default port; the control surface asks for port 5006, which is taken.
    The old listener is stopped, the new listener thread logs its error and
    ends, no listener is bound any more, and the control surface is told
    that the configuration was updated. *)
Theorem failed_bind_reported_as_success :
  let started := (start_osc_server port_taken (initial_world Missing)).2 in
  let data := list_to_map [("osc_ip", VStr "0.0.0.0"); ("osc_port", VInt 5006)] in
  let run := update_osc_config port_taken data started in
  osc_server_instance started = Some {| srv_ip := "0.0.0.0"; srv_port := 5005 |}
  /\ run.1 = Ok {| success := true; message := "Configuration updated" |}
  /\ listening run.2 = false
  /\ log run.2 =
       [(INFO, "OSC Server started on 0.0.0.0:5005");
        (INFO, "Configuration saved");
        (INFO, "Stopping OSC server...");
        (ERROR, "Error starting OSC server: [Errno 48] Address already in use");
        (INFO, "OSC server restarted")].
Proof. vm_compute. repeat split. Qed.

(** C9: no validation of the port. A request for port 80 is stored in the
    configuration, written to the file, and answered with success. *)
Theorem port_outside_range_is_persisted :
  let data := list_to_map [("osc_ip", VStr "127.0.0.1"); ("osc_port", VInt 80)] in
  let run := update_osc_config unprivileged data (initial_world Missing) in
  run.1 = Ok {| success := true; message := "Configuration updated" |}
  /\ config run.2 !! "osc_port" = Some (VInt 80)
  /\ (exists d, config_file run.2 = Document d /\ d !! "osc_port" = Some (VInt 80))
  /\ listening run.2 = false.
Proof. vm_compute. repeat split. eexists. split; reflexivity. Qed.

(** The control surface is told of success whenever the old listener
    stopped without an exception, whatever became of the new one. *)
Lemma update_osc_config_success
    (E : env) (data : gmap string value) (w : world) :
  shutdown_error E = None ->
  (update_osc_config E data w).1
  = Ok {| success := true; message := "Configuration updated" |}.
Proof.
  intros Hstop.
  unfold update_osc_config, try_except, mbind, M_bind, get_config, set_config.
  simpl. destruct (save_config E _) as [[[]|e] w1] eqn:Hsave.
  - pose proof (restart_ignores_bind E w1 Hstop) as Hre.
    destruct (restart_osc_server E w1) as [r w2]. simpl in Hre. subst r.
    reflexivity.
  - unfold save_config, try_except, mbind, M_bind, logger, mret, M_ret in Hsave.
    repeat (case_match; simplify_eq).
Qed.

(** Whatever port the request carries becomes the configured port. *)
Lemma update_osc_config_stores_any_port
    (E : env) (data : gmap string value) (w : world) :
  config (update_osc_config E data w).2 !! "osc_port"
  = Some (default (VInt 5005) (data !! "osc_port")).
Proof.
  unfold update_osc_config, try_except, mbind, M_bind, get_config, set_config,
    save_config, restart_osc_server, try_except, mbind, M_bind, get_server,
    stop_server, thread_start, start_osc_server, try_except, mbind, M_bind,
    bind, sleep, mret, M_ret, set_server, set_file, logger, raise, get_config.
  simpl.
  repeat (case_match; simpl in *; simplify_eq; try apply lookup_insert_eq).
Qed.

(** And, when the file can be written, the persisted port. *)
Lemma update_osc_config_persists_any_port
    (E : env) (data : gmap string value) (w : world) :
  write_config E = Written ->
  exists d,
    config_file (update_osc_config E data w).2 = Document d
    /\ d !! "osc_port" = Some (default (VInt 5005) (data !! "osc_port")).
Proof.
  intros Hwrite.
  unfold update_osc_config, try_except, mbind, M_bind, get_config, set_config,
    save_config, restart_osc_server, try_except, mbind, M_bind, get_server,
    stop_server, thread_start, start_osc_server, try_except, mbind, M_bind,
    bind, sleep, mret, M_ret, set_server, set_file, logger, raise, get_config.
  rewrite Hwrite. simpl.
  repeat (case_match; simpl in *; simplify_eq);
    eexists; (split; [reflexivity|apply lookup_insert_eq]).
Qed.

(** C10. When the configuration file exists and parses, [load_config]
    updates the configuration, which holds the built-in defaults at start,
    with the top level of the file: a field present in the file replaces
    the value whole, a field absent from it keeps its value. A
    [custom_shortcuts] mapping in the file thus replaces the default
    mapping whole; its entries are not merged with the default entries. *)
Theorem load_config_updates_top_level
    (E : env) (w : world) (loaded_config : gmap string value) :
  config_file w = Document loaded_config ->
  exists w',
    load_config E w = (Ok tt, w')
    /\ config w' = loaded_config ∪ config w
    /\ (forall field,
          config w' !! field =
            match loaded_config !! field with
            | Some v => Some v
            | None => config w !! field
            end)
    /\ (forall m,
          loaded_config !! "custom_shortcuts" = Some (VShortcuts m) ->
          config w' !! "custom_shortcuts" = Some (VShortcuts m))
    /\ config_file w' = config_file w.
Proof.
  intros Hfile.
  unfold load_config, try_except, mbind, M_bind, get_file, get_config, set_config,
    logger.
  rewrite Hfile. eexists. split; [reflexivity|]. simpl.
  assert (Hfield : forall field,
            (loaded_config ∪ config w) !! field =
              match loaded_config !! field with
              | Some v => Some v
              | None => config w !! field
              end).
  { intros field. rewrite lookup_union.
    destruct (loaded_config !! field), (config w !! field); reflexivity. }
  split; [reflexivity|]. split; [exact Hfield|]. split; [|exact Hfile].
  intros m Hm. rewrite Hfield, Hm. reflexivity.
Qed.

Lemma load_config_updates_top_level_witness :
  let file :=
    list_to_map
      [("osc_port", VInt 9000);
       ("custom_shortcuts",
        VShortcuts (list_to_map
          [("/key/quit", {| sc_modifiers := Some ["command"]; sc_key := Some "q";
                            sc_description := None |})]))] in
  let w' := (load_config pynput (initial_world (Document file))).2 in
  config w' !! "osc_port" = Some (VInt 9000)
  /\ config w' !! "osc_ip" = Some (VStr "0.0.0.0")
  /\ config w' !! "custom_shortcuts" = file !! "custom_shortcuts".
Proof.
  intros file w'.
  destruct (load_config_updates_top_level pynput (initial_world (Document file))
              file eq_refl) as (w1 & Hrun & _ & Hfield & _).
  subst w'. rewrite Hrun. simpl. rewrite !Hfield. repeat split.
Defined.

(** * Further properties *)

(** ** Resolver and handler *)

Lemma classify_invariant (args : list osc_arg) (mods : list string)
    (key : option string) :
  classify args = (mods, key) ->
  Forall (fun m => dict_in (Py.lower m) MODIFIERS = true) mods
  /\ (forall k, key = Some k -> dict_in (Py.lower k) MODIFIERS = false).
Proof.
  revert mods key. induction args as [|a rest IH]; intros mods key; simpl.
  - intros [= <- <-]. split; [constructor|discriminate].
  - destruct (dict_in (Py.lower (Py.strip (str a))) MODIFIERS) eqn:Ha.
    + destruct (classify rest) as [mods' key']. intros [= <- <-].
      destruct (IH mods' key' eq_refl) as [Hm Hk]. split; [constructor|]; assumption.
    + intros [= <- <-]. split; [constructor|]. intros k [= <-]. exact Ha.
Qed.

Lemma known_modifier_keys_length (mods : list string) :
  Forall (fun m => dict_in (Py.lower m) MODIFIERS = true) mods ->
  length (known_modifier_keys mods) = length mods.
Proof.
  unfold known_modifier_keys. induction 1 as [|m mods Hm _ IH]; [reflexivity|].
  simpl. unfold dict_in in Hm. apply bool_decide_eq_true in Hm as [k Hk].
  rewrite Hk. simpl. f_equal. exact IH.
Qed.

(** X1. What the argument heuristic hands to the executor is well formed:
    every modifier is an alias of the vocabulary (so none is dropped with
    an "Unknown modifier" warning), the key is not an alias, and key and
    modifiers are not both missing. *)
Theorem parsed_command_is_well_formed
    (shortcuts : gmap string shortcut) (address : string) (args : list osc_arg)
    (mods : list string) (key : option string) :
  resolve shortcuts address args = Parsed mods key ->
  Forall (fun m => dict_in (Py.lower m) MODIFIERS = true) mods
  /\ (forall k, key = Some k -> dict_in (Py.lower k) MODIFIERS = false)
  /\ (Py.truthy_opt key = true \/ mods <> [])
  /\ length (known_modifier_keys mods) = length mods.
Proof.
  unfold resolve, resolve_entry, finish.
  destruct (shortcuts !! address); [discriminate|].
  destruct (args_or_address address args) as [args'|]; [|discriminate].
  destruct (classify (split_single args')) as [mods' key'] eqn:Hc.
  destruct (Py.truthy_opt key' || bool_decide (mods' ≠ [])) eqn:Hb; [|discriminate].
  intros [= <- <-]. destruct (classify_invariant _ _ _ Hc) as [Hm Hk].
  split; [exact Hm|]. split; [exact Hk|]. split.
  - apply orb_true_iff in Hb as [Hb|Hb]; [left; exact Hb|right].
    apply bool_decide_eq_true in Hb. exact Hb.
  - apply known_modifier_keys_length, Hm.
Qed.

Lemma parsed_command_is_well_formed_witness :
  length (known_modifier_keys ["Cmd"; "SHIFT"]) = 2%nat.
Proof.
  apply (parsed_command_is_well_formed DEFAULT_SHORTCUTS "/key/anything"
           [ArgStr " Cmd"; ArgStr "SHIFT "; ArgNum "7"; ArgStr "ignored"]
           ["Cmd"; "SHIFT"] (Some "7")).
  reflexivity.
Defined.

Lemma perform_runs (E : env) (address : string) (r : resolution) (w : world) :
  runs (perform E address r) w (fun res lg kb sc => res = Ok tt).
Proof.
  assert (Hpress : forall mods k w0,
            runs (press_key_combo E (Some mods) k;; mret tt) w0
              (fun res lg kb sc => res = Ok tt)).
  { intros mods k w0.
    eapply runs_bind; [apply press_key_combo_runs| |]; simpl.
    - intros e lg kb sc (Hr & _). discriminate Hr.
    - intros v lg kb sc _. apply runs_ret. reflexivity. }
  destruct r as [mods k desc|mods k| |]; simpl.
  - destruct (Py.truthy desc); apply runs_log_then;
      eapply runs_weaken; [apply Hpress|auto|apply Hpress|auto].
  - apply runs_log_then. eapply runs_weaken; [apply Hpress|auto].
  - apply runs_logger. reflexivity.
  - apply runs_logger. reflexivity.
Qed.

(** X2. The handler is a read-only consumer: for every message and every
    behaviour of keyboard and scripting it only adds log records, keyboard
    events and scripts; configuration, file and listener are as before.
    Once the configuration holds a shortcut table it cannot fail, whatever
    the executor meets. It raises only from the table lookup, on a
    configuration whose ["custom_shortcuts"] entry is missing or is no
    table, and then nothing at all has been done. *)
Theorem handle_keypress_is_read_only
    (E : env) (address : string) (args : list osc_arg) (w : world) :
  exists r lg kb sc,
    handle_keypress E address args w = (r, extend w lg kb sc)
    /\ (is_Some (table_of w) -> r = Ok tt)
    /\ (r <> Ok tt -> lg = [] /\ kb = [] /\ sc = []).
Proof.
  assert (Hraise : forall e,
            handle_keypress E address args w = (Raise e, w) ->
            table_of w = None ->
            exists r lg kb sc,
              handle_keypress E address args w = (r, extend w lg kb sc)
              /\ (is_Some (table_of w) -> r = Ok tt)
              /\ (r <> Ok tt -> lg = [] /\ kb = [] /\ sc = [])).
  { intros e Hrun Hnone. exists (Raise e), [], [], [].
    rewrite extend_nil, Hnone. split; [exact Hrun|]. split; [|auto].
    intros [x Hx]. discriminate Hx. }
  assert (Hok : forall lg kb sc,
            handle_keypress E address args w = (Ok tt, extend w lg kb sc) ->
            exists r lg kb sc,
              handle_keypress E address args w = (r, extend w lg kb sc)
              /\ (is_Some (table_of w) -> r = Ok tt)
              /\ (r <> Ok tt -> lg = [] /\ kb = [] /\ sc = [])).
  { intros lg kb sc Hrun. exists (Ok tt), lg, kb, sc.
    split; [exact Hrun|]. split; [reflexivity|]. intros H. contradiction H.
    reflexivity. }
  destruct (config w !! "custom_shortcuts") as [[s|n|m]|] eqn:Hcfg.
  - destruct (Py.occurs_in address s) eqn:Hin.
    + eapply Hraise; [|unfold table_of; rewrite Hcfg; reflexivity].
      unfold handle_keypress, lookup_shortcut, mbind, M_bind, get_config.
      rewrite Hcfg, Hin. reflexivity.
    + pose proof (perform_runs E address (resolve ∅ address args) w)
        as (r & lg & kb & sc & Hrun & ->).
      apply (Hok lg kb sc). rewrite <- Hrun.
      unfold handle_keypress, lookup_shortcut, mbind, M_bind, get_config,
        mret, M_ret.
      rewrite Hcfg, Hin. unfold resolve. rewrite lookup_empty.
      destruct (args_or_address address args) as [args'|]; [|reflexivity].
      unfold finish. destruct (classify (split_single args')) as [mods key].
      destruct (Py.truthy_opt key || bool_decide (mods ≠ [])); reflexivity.
  - eapply Hraise; [|unfold table_of; rewrite Hcfg; reflexivity].
    unfold handle_keypress, lookup_shortcut, mbind, M_bind, get_config.
    rewrite Hcfg. reflexivity.
  - destruct (perform_runs E address (resolve m address args) w)
      as (r & lg & kb & sc & Hrun & ->).
    apply (Hok lg kb sc).
    rewrite (handle_keypress_resolve E w m) by assumption. exact Hrun.
  - eapply Hraise; [|unfold table_of; rewrite Hcfg; reflexivity].
    unfold handle_keypress, lookup_shortcut, mbind, M_bind, get_config.
    rewrite Hcfg. reflexivity.
Qed.

(** ** Executor *)

Lemma modifier_part_clause (name clause : string) :
  modifier_part name = Some clause ->
  clause ∈ MODIFIER_CLAUSES /\ Py.truthy clause = true.
Proof.
  unfold modifier_part, MODIFIER_CLAUSES.
  repeat case_bool_decide; intros [= <-]; (split; [|reflexivity]);
    rewrite !elem_of_cons; tauto.
Qed.

Lemma modifier_clauses (modifiers : list string) :
  Forall (fun c => c ∈ MODIFIER_CLAUSES /\ Py.truthy c = true)
    (omap modifier_part modifiers).
Proof.
  induction modifiers as [|name rest IH]; simpl; [constructor|].
  destruct (modifier_part name) as [clause|] eqn:Hp; simpl; [|exact IH].
  constructor; [apply (modifier_part_clause name), Hp|exact IH].
Qed.

Lemma truthy_join (sep c : string) (l : list string) :
  Py.truthy c = true -> Py.truthy (Py.join sep (c :: l)) = true.
Proof. destruct c; [discriminate|]. intros _. destruct l; reflexivity. Qed.

(** X3. Whatever the message holds, a script handed to [osascript] by
    [press_key_combo] is made of fixed text only: the key code of one of
    the four arrow keys and the clauses of the known modifiers, in the
    order given. No character of the key or of a modifier name is copied
    into it. *)
Theorem script_is_made_of_fixed_text
    (modifiers : list string) (key : option string) :
  select_backend modifiers key = Scripting ->
  exists k code,
    key = Some k
    /\ APPLESCRIPT_KEY_CODES !! Py.lower k = Some code
    /\ code ∈ [123; 124; 125; 126]
    /\ Forall (fun c => c ∈ MODIFIER_CLAUSES) (omap modifier_part modifiers)
    /\ applescript_for modifiers k
       = key_code_script code (omap modifier_part modifiers).
Proof.
  intros Hsel. apply select_backend_spec in Hsel as [(k & -> & Hk) _].
  assert (Hcode : exists code, APPLESCRIPT_KEY_CODES !! Py.lower k = Some code
                               /\ code ∈ [123; 124; 125; 126]).
  { unfold ARROW_KEYS in Hk. rewrite !elem_of_cons, elem_of_nil in Hk.
    destruct Hk as [->|[->|[->|[->|[]]]]]; eexists; (split; [reflexivity|]);
      rewrite !elem_of_cons; tauto. }
  destruct Hcode as (code & Hcode & Hin). exists k, code.
  split; [reflexivity|]. split; [exact Hcode|]. split; [exact Hin|].
  pose proof (modifier_clauses modifiers) as Hcl. split.
  - eapply Forall_impl; [exact Hcl|]. intros c [Hc _]. exact Hc.
  - unfold applescript_for, key_code_script. rewrite Hcode.
    destruct (omap modifier_part modifiers) as [|c l]; [reflexivity|].
    apply Forall_cons in Hcl as [[_ Hc] _].
    rewrite (truthy_join ", " c l Hc). reflexivity.
Qed.

Lemma script_is_made_of_fixed_text_witness :
  applescript_for ["Ctrl"; "hyper"; "OPTION"] "Left"
  = key_code_script 123 ["control down"; "option down"].
Proof.
  destruct (script_is_made_of_fixed_text ["Ctrl"; "hyper"; "OPTION"] (Some "Left")
              eq_refl) as (k & code & Hk & Hcode & _ & _ & Hscript).
  injection Hk as <-. injection Hcode as <-. exact Hscript.
Defined.


Lemma known_modifier_keys_lower (m1 m2 : list string) :
  map Py.lower m1 = map Py.lower m2 ->
  known_modifier_keys m1 = known_modifier_keys m2
  /\ omap modifier_part m1 = omap modifier_part m2.
Proof.
  unfold known_modifier_keys. revert m2.
  induction m1 as [|n1 m1 IH]; intros [|n2 m2]; try discriminate; [auto|].
  intros [= Hn Hm]. destruct (IH m2 Hm) as [Hk Hp].
  assert (Hpart : modifier_part n1 = modifier_part n2).
  { unfold modifier_part. rewrite Hn. reflexivity. }
  cbn -[MODIFIERS modifier_part]. rewrite Hn, Hk, Hpart, Hp. auto.
Qed.

(** X5. The letter case of the modifier names plays no part in what is
    injected: two commands whose modifier names agree up to case send the
    same keyboard events and run the same scripts, under every behaviour of
    the operating system. *)
Theorem modifier_case_is_irrelevant
    (E : env) (m1 m2 : list string) (key : option string) (w : world) :
  map Py.lower m1 = map Py.lower m2 ->
  keyboard (press_key_combo E (Some m1) key w).2
  = keyboard (press_key_combo E (Some m2) key w).2
  /\ osascript (press_key_combo E (Some m1) key w).2
     = osascript (press_key_combo E (Some m2) key w).2.
Proof.
  intros Hlow. destruct (known_modifier_keys_lower m1 m2 Hlow) as [Hk Hp].
  assert (Hsel : select_backend m1 key = select_backend m2 key).
  { unfold select_backend, use_applescript.
    destruct m1, m2; try discriminate; reflexivity. }
  assert (Hscript : forall k, applescript_for m1 k = applescript_for m2 k).
  { intros k. unfold applescript_for. rewrite Hp. reflexivity. }
  destruct (press_key_combo_runs E (Some m1) key w)
    as (r1 & lg1 & kb1 & sc1 & Hrun1 & _ & _ & H1).
  destruct (press_key_combo_runs E (Some m2) key w)
    as (r2 & lg2 & kb2 & sc2 & Hrun2 & _ & _ & H2).
  simpl in H1, H2. rewrite Hrun1, Hrun2. simpl.
  rewrite Hsel, Hk in H1. destruct (select_backend m2 key).
  - destruct H1 as [-> ->], H2 as [-> ->]. rewrite Hscript. auto.
  - destruct H1 as [-> ->], H2 as [-> ->]. auto.
Qed.

Lemma modifier_case_is_irrelevant_witness :
  keyboard (press_key_combo pynput (Some ["CMD"; "Shift"]) (Some "ab")
              (initial_world Missing)).2
  = keyboard (press_key_combo pynput (Some ["cmd"; "shift"]) (Some "ab")
                (initial_world Missing)).2.
Proof.
  apply (modifier_case_is_irrelevant pynput ["CMD"; "Shift"] ["cmd"; "shift"]
           (Some "ab") (initial_world Missing)).
  reflexivity.
Defined.

Lemma unknown_modifiers_cons (name : string) (rest : list string) :
  unknown_modifiers (name :: rest) =
    match MODIFIERS !! Py.lower name with
    | Some _ => unknown_modifiers rest
    | None => name :: unknown_modifiers rest
    end.
Proof.
  unfold unknown_modifiers, dict_in.
  destruct (MODIFIERS !! Py.lower name) as [k|] eqn:Hk.
  - apply filter_cons_False. cbv beta. rewrite Hk.
    rewrite bool_decide_eq_true_2 by eauto. discriminate.
  - apply filter_cons_True. cbv beta. rewrite Hk.
    apply bool_decide_eq_false_2. intros [x Hx]. discriminate Hx.
Qed.

Lemma known_modifier_keys_cons (name : string) (rest : list string) :
  known_modifier_keys (name :: rest) =
    match MODIFIERS !! Py.lower name with
    | Some k => k :: known_modifier_keys rest
    | None => known_modifier_keys rest
    end.
Proof. reflexivity. Qed.

(** X6. A modifier name outside the vocabulary does not abort the combo:
    the conversion loop of [press_key_combo] logs one "Unknown modifier"
    warning per such name, in order, keeps the keys of the others in
    order, raises nothing and touches nothing else. *)
Theorem unknown_modifiers_are_logged_and_skipped
    (modifiers : list string) (w : world) :
  modifier_keys_of modifiers w =
    (Ok (known_modifier_keys modifiers),
     extend w
       (map (fun name => (WARNING, "Unknown modifier: " +:+ name))
            (unknown_modifiers modifiers)) [] [])
  /\ (length (known_modifier_keys modifiers)
      + length (unknown_modifiers modifiers) = length modifiers)%nat.
Proof.
  split.
  - revert w. induction modifiers as [|name rest IH]; intros w.
    + simpl. rewrite extend_nil. reflexivity.
    + rewrite unknown_modifiers_cons, known_modifier_keys_cons.
      cbn -[MODIFIERS]. destruct (MODIFIERS !! Py.lower name) as [k|].
      * unfold mbind, M_bind. rewrite IH. reflexivity.
      * unfold mbind, M_bind. rewrite logger_run, IH, extend_extend. reflexivity.
  - induction modifiers as [|name rest IH]; [reflexivity|].
    rewrite unknown_modifiers_cons, known_modifier_keys_cons.
    destruct (MODIFIERS !! Py.lower name); simpl; lia.
Qed.

(** ** Persistence *)

Lemma save_config_run (E : env) (w : world) :
  save_config E w =
    (Ok tt, with_file w (file_after_save E (config w) (config_file w)) [save_record E]).
Proof.
  unfold save_config, try_except, mbind, M_bind, get_config, set_file, raise, logger,
    with_file, file_after_save, save_record.
  destruct (write_config E); reflexivity.
Qed.

Lemma load_config_creates_file_run (E : env) (w : world) :
  config_file w = Missing ->
  load_config E w =
    (Ok tt, with_file w (file_after_save E (config w) Missing)
              [save_record E; (INFO, "Created default configuration file")])
  /\ config_file (with_file w (file_after_save E (config w) Missing)
                    [save_record E; (INFO, "Created default configuration file")])
     = file_after_save E (config w) Missing.
Proof.
  intros Hfile. split; [|reflexivity].
  unfold load_config, try_except, mbind, M_bind, get_file.
  rewrite Hfile, save_config_run, logger_run, Hfile.
  unfold with_file, extend. simpl. rewrite !app_nil_r, <- app_assoc. reflexivity.
Qed.

(** X7. Without a configuration file [load_config] keeps the
    configuration it has and writes it out: the file then holds exactly
    that configuration when the write goes through. It reports the file as
    created even when the write failed, and raises in no case. *)
Theorem load_config_creates_the_file (E : env) (w : world) :
  config_file w = Missing ->
  exists w',
    load_config E w = (Ok tt, w')
    /\ config w' = config w
    /\ config_file w' =
         match write_config E with
         | Written => Document (config w)
         | OpenFails _ => Missing
         | DumpFails _ left_over => Unreadable left_over
         end
    /\ log w' = log w ++
         [save_record E; (INFO, "Created default configuration file")].
Proof.
  intros Hfile.
  destruct (load_config_creates_file_run E w Hfile) as [Hrun _].
  eexists. split; [exact Hrun|]. repeat split.
Qed.

Lemma load_config_creates_the_file_witness :
  config_file (load_config quiet (initial_world Missing)).2 = Document DEFAULT_CONFIG.
Proof.
  destruct (load_config_creates_the_file quiet (initial_world Missing) eq_refl)
    as (w' & Hrun & _ & Hfile & _).
  rewrite Hrun. exact Hfile.
Defined.

Lemma load_config_document (E : env) (w : world) (d : gmap string value) :
  config_file w = Document d ->
  load_config E w =
    (Ok tt, extend (with_config w (d ∪ config w))
              [(INFO, "Configuration loaded from file")] [] []).
Proof.
  intros Hfile.
  unfold load_config, try_except, mbind, M_bind, get_file, get_config, set_config.
  rewrite Hfile. fold (with_config w (d ∪ config w)). apply logger_run.
Qed.

(** X8. Round trip across a restart: a configuration that holds the three
    default keys, once saved, is what a fresh process finds again when it
    loads the file. *)
Theorem saved_configuration_is_found_again (E E' : env) (w : world) :
  write_config E = Written ->
  has_default_keys (config w) ->
  let written := config_file (save_config E w).2 in
  load_config E' (initial_world written) =
    (Ok tt, extend (with_config (initial_world written) (config w))
              [(INFO, "Configuration loaded from file")] [] [])
  /\ config (load_config E' (initial_world written)).2 = config w.
Proof.
  intros Hwrite Hkeys written.
  assert (Hwritten : written = Document (config w)).
  { subst written. rewrite save_config_run. simpl.
    unfold file_after_save. rewrite Hwrite. reflexivity. }
  assert (Hunion : config w ∪ DEFAULT_CONFIG = config w).
  { apply map_eq. intros k. rewrite lookup_union.
    destruct (config w !! k) as [v|] eqn:Hk; [destruct (DEFAULT_CONFIG !! k); reflexivity|].
    destruct (DEFAULT_CONFIG !! k) as [v|] eqn:Hd; [|reflexivity].
    destruct (Hkeys k) as [v' Hv']; [eauto|]. congruence. }
  rewrite (load_config_document E' _ (config w)) by (rewrite Hwritten; reflexivity).
  simpl. rewrite Hunion. auto.
Qed.

Lemma saved_configuration_is_found_again_witness :
  let w := (update_osc_config quiet
              (list_to_map [("osc_ip", VStr "10.0.0.7"); ("osc_port", VInt 9001)])
              (initial_world Missing)).2 in
  config (load_config pynput
            (initial_world (config_file (save_config quiet w).2))).2
  = config w.
Proof.
  intros w.
  apply (saved_configuration_is_found_again quiet pynput w); [reflexivity|].
  intros k [v Hv]. subst w. vm_compute in Hv |- *.
  repeat (case_match; simplify_eq; eauto).
Defined.

(** X9. Loading twice is loading once: with a file system that takes the
    write, a second [load_config] leaves the configuration the first one
    produced. *)
Theorem load_config_twice (E : env) (w : world) :
  write_config E = Written ->
  config (load_config E (load_config E w).2).2 = config (load_config E w).2.
Proof.
  intros Hwrite. destruct (config_file w) as [|e|d] eqn:Hfile.
  - destruct (load_config_creates_file_run E w Hfile) as [Hrun _].
    rewrite Hrun. unfold file_after_save. rewrite Hwrite. cbn [snd].
    rewrite (load_config_document E _ (config w)) by reflexivity.
    simpl. apply (idemp_L (∪)).
  - assert (Hrun : forall w0, config_file w0 = Unreadable e ->
              load_config E w0 =
                (Ok tt, with_config (extend w0
                          [(ERROR, "Error loading config: " +:+ e)] [] [])
                          DEFAULT_CONFIG)).
    { intros w0 H0. unfold load_config, try_except, mbind, M_bind, get_file, raise.
      rewrite H0, logger_run. reflexivity. }
    rewrite (Hrun w Hfile). rewrite Hrun by exact Hfile. reflexivity.
  - rewrite (load_config_document E w d Hfile).
    rewrite (load_config_document E _ d) by exact Hfile.
    simpl. rewrite (assoc_L (∪)), (idemp_L (∪)). reflexivity.
Qed.

Lemma load_config_twice_witness :
  config (load_config quiet (load_config quiet (initial_world Missing)).2).2
  = config (load_config quiet (initial_world Missing)).2.
Proof. apply (load_config_twice quiet (initial_world Missing)). reflexivity. Defined.

(** ** Listener and control surface *)

Lemma start_osc_server_run (E : env) (w : world) :
  exists r, bind E (bind_ip (config w)) (bind_port (config w)) w = (r, w)
  /\ start_osc_server E w =
       (Ok tt,
        match r with
        | Ok srv =>
            extend (with_server w (Some srv))
              [(INFO, "OSC Server started on " +:+ srv_ip srv +:+ ":"
                      +:+ pretty (srv_port srv))] [] []
        | Raise e => extend w [(ERROR, "Error starting OSC server: " +:+ e)] [] []
        end).
Proof.
  unfold start_osc_server, try_except, mbind, M_bind, get_config, bind_ip, bind_port.
  assert (Hb : exists r, bind E (default (VStr "127.0.0.1") (config w !! "osc_ip"))
                           (default (VInt 5005) (config w !! "osc_port")) w = (r, w)).
  { unfold bind, raise, mret, M_ret. repeat case_match; eauto. }
  destruct Hb as [r Hb]. exists r. split; [exact Hb|]. rewrite Hb.
  destruct r as [srv|e]; [|apply logger_run].
  unfold set_server. fold (with_server w (Some srv)). apply logger_run.
Qed.

Lemma restart_osc_server_run (E : env) (w : world) :
  restart_osc_server E w =
    match osc_server_instance w, shutdown_error E with
    | Some _, Some e =>
        (Ok false,
         append_log (append_log w [(INFO, "Stopping OSC server...")])
           [(ERROR, "Error restarting OSC server: " +:+ e)])
    | Some _, None =>
        (Ok true,
         append_log
           (start_osc_server E
              (with_server (append_log w [(INFO, "Stopping OSC server...")]) None)).2
           [(INFO, "OSC server restarted")])
    | None, _ =>
        (Ok true,
         append_log (start_osc_server E (with_server w None)).2
           [(INFO, "OSC server restarted")])
    end.
Proof.
  unfold restart_osc_server, try_except, mbind, M_bind, get_server, stop_server,
    thread_start, sleep, mret, M_ret, raise, set_server, logger, append_log,
    with_server.
  destruct w as [cfg instance lg kb osa file]. simpl.
  destruct instance, (shutdown_error E); reflexivity.
Qed.

Lemma start_osc_server_config (E : env) (w : world) :
  config (start_osc_server E w).2 = config w
  /\ config_file (start_osc_server E w).2 = config_file w
  /\ keyboard (start_osc_server E w).2 = keyboard w
  /\ osascript (start_osc_server E w).2 = osascript w.
Proof.
  destruct (start_osc_server_run E w) as (r & _ & Hrun). rewrite Hrun.
  destruct r; repeat split; simpl; rewrite ?app_nil_r; reflexivity.
Qed.

Lemma restart_osc_server_config (E : env) (w : world) :
  config (restart_osc_server E w).2 = config w
  /\ config_file (restart_osc_server E w).2 = config_file w
  /\ keyboard (restart_osc_server E w).2 = keyboard w
  /\ osascript (restart_osc_server E w).2 = osascript w.
Proof.
  rewrite restart_osc_server_run.
  destruct (osc_server_instance w), (shutdown_error E); simpl;
    try (destruct (start_osc_server_config E
                     (with_server (append_log w [(INFO, "Stopping OSC server...")])
                        None)) as (-> & -> & -> & ->));
    try (destruct (start_osc_server_config E (with_server w None))
           as (-> & -> & -> & ->));
    auto.
Qed.

Lemma restart_osc_server_answers (E : env) (w : world) :
  exists b, (restart_osc_server E w).1 = Ok b.
Proof.
  rewrite restart_osc_server_run.
  destruct (osc_server_instance w), (shutdown_error E); eauto.
Qed.

(** The world [update_osc_config] hands to [restart_osc_server]. *)
Lemma update_osc_config_run (E : env) (data : gmap string value) (w : world) :
  let w2 := (save_config E (with_config w (updated_config data (config w)))).2 in
  exists b,
    (restart_osc_server E w2).1 = Ok b
    /\ update_osc_config E data w =
         (Ok {| success := b;
                message := if b then "Configuration updated"
                           else "Failed to restart server" |},
          (restart_osc_server E w2).2).
Proof.
  intros w2. destruct (restart_osc_server_answers E w2) as [b Hb].
  exists b. split; [exact Hb|]. subst w2.
  unfold update_osc_config, try_except, mbind, M_bind, get_config, set_config,
    mret, M_ret, with_config, updated_config, bind_ip, bind_port in *.
  simpl in *. rewrite save_config_run in *. simpl in *.
  destruct (restart_osc_server E _) as [r w3]. simpl in Hb. subst r. reflexivity.
Qed.

(** X10. [start_osc_server] never raises. It binds to the address the
    configuration holds, [127.0.0.1] and [5005] standing in for a missing
    [osc_ip] or [osc_port]; when the bind goes through the new listener is
    registered, and when it fails the registered listener is left as it was
    and the failure shows only as an ERROR record. *)
Theorem start_osc_server_binds_configured_address (E : env) (w : world) :
  let ip := default (VStr "127.0.0.1") (config w !! "osc_ip") in
  let port := default (VInt 5005) (config w !! "osc_port") in
  exists w',
    start_osc_server E w = (Ok tt, w')
    /\ config w' = config w
    /\ match ip, port with
       | VStr i, VInt n =>
           match bind_error E i n with
           | None =>
               osc_server_instance w' = Some {| srv_ip := i; srv_port := n |}
               /\ exists line, log w' = log w ++ [(INFO, line)]
           | Some e =>
               osc_server_instance w' = osc_server_instance w
               /\ log w' = log w ++ [(ERROR, "Error starting OSC server: " +:+ e)]
           end
       | _, _ =>
           osc_server_instance w' = osc_server_instance w
           /\ exists line, log w' = log w ++ [(ERROR, line)]
       end.
Proof.
  intros ip port.
  destruct (start_osc_server_run E w) as (r & Hbind & Hrun).
  eexists. split; [exact Hrun|].
  split; [destruct r; reflexivity|].
  unfold bind_ip, bind_port in Hbind. subst ip port.
  unfold bind, raise, mret, M_ret in Hbind.
  destruct (default (VStr "127.0.0.1") (config w !! "osc_ip")) as [i|n1|m1],
           (default (VInt 5005) (config w !! "osc_port")) as [s2|n|m2];
    try (injection Hbind as <-; simpl; rewrite ?app_nil_r; eauto).
  destruct (bind_error E i n) as [e|]; injection Hbind as <-; simpl;
    rewrite ?app_nil_r; eauto.
Qed.

Lemma restart_binds_current_configuration_aux
    (E : env) (w : world) (ip : string) (port : Z) :
  shutdown_error E = None ->
  default (VStr "127.0.0.1") (config w !! "osc_ip") = VStr ip ->
  default (VInt 5005) (config w !! "osc_port") = VInt port ->
  bind_error E ip port = None ->
  (restart_osc_server E w).1 = Ok true
  /\ osc_server_instance (restart_osc_server E w).2
     = Some {| srv_ip := ip; srv_port := port |}
  /\ config (restart_osc_server E w).2 = config w.
Proof.
  intros Hstop Hip Hport Hbind.
  split; [|split; [|apply restart_osc_server_config]].
  - rewrite restart_osc_server_run, Hstop. destruct (osc_server_instance w); reflexivity.
  - rewrite restart_osc_server_run, Hstop.
    assert (Hstart : forall w0, config w0 = config w ->
              osc_server_instance (start_osc_server E w0).2
              = Some {| srv_ip := ip; srv_port := port |}).
    { intros w0 Hcfg. destruct (start_osc_server_run E w0) as (r & Hb & Hrun).
      rewrite Hrun. unfold bind_ip, bind_port in Hb. rewrite Hcfg, Hip, Hport in Hb.
      unfold bind in Hb. rewrite Hbind in Hb. injection Hb as <-. reflexivity. }
    destruct (osc_server_instance w); simpl; apply Hstart; reflexivity.
Qed.

(** X11. After a restart whose stop and bind both go through, the
    registered listener is bound to the address the configuration holds
    now, whatever was registered before; the configuration itself is not
    touched. *)
Theorem restart_binds_current_configuration
    (E : env) (w : world) (ip : string) (port : Z) :
  shutdown_error E = None ->
  default (VStr "127.0.0.1") (config w !! "osc_ip") = VStr ip ->
  default (VInt 5005) (config w !! "osc_port") = VInt port ->
  bind_error E ip port = None ->
  (restart_osc_server E w).1 = Ok true
  /\ osc_server_instance (restart_osc_server E w).2
     = Some {| srv_ip := ip; srv_port := port |}
  /\ config (restart_osc_server E w).2 = config w.
Proof. apply restart_binds_current_configuration_aux. Qed.

Lemma restart_binds_current_configuration_witness :
  osc_server_instance
    (restart_osc_server port_taken
       (start_osc_server port_taken (initial_world Missing)).2).2
  = Some {| srv_ip := "0.0.0.0"; srv_port := 5005 |}.
Proof.
  apply (restart_binds_current_configuration port_taken
           (start_osc_server port_taken (initial_world Missing)).2 "0.0.0.0" 5005);
    reflexivity.
Defined.

(** X12. [update_osc_config] always answers and never raises. It sets
    [osc_ip] and [osc_port] to what the request carries, a missing field
    being replaced by [127.0.0.1] or [5005] rather than by the current
    value, and leaves every other key of the configuration, the shortcut
    table included, as it was. The answer is a success exactly when
    [restart_osc_server] answered [True]. *)
Theorem update_osc_config_sets_the_bind_keys
    (E : env) (data : gmap string value) (w : world) :
  exists b w',
    update_osc_config E data w =
      (Ok {| success := b;
             message := if b then "Configuration updated"
                        else "Failed to restart server" |}, w')
    /\ config w' !! "osc_ip" = Some (default (VStr "127.0.0.1") (data !! "osc_ip"))
    /\ config w' !! "osc_port" = Some (default (VInt 5005) (data !! "osc_port"))
    /\ (forall k, k <> "osc_ip" -> k <> "osc_port" -> config w' !! k = config w !! k)
    /\ keyboard w' = keyboard w /\ osascript w' = osascript w.
Proof.
  destruct (update_osc_config_run E data w) as (b & _ & Hrun).
  exists b. eexists. split; [exact Hrun|].
  destruct (restart_osc_server_config E
              (save_config E (with_config w (updated_config data (config w)))).2)
    as (-> & _ & -> & ->).
  rewrite save_config_run. simpl. unfold updated_config, bind_ip, bind_port.
  split; [|split; [|split]].
  - rewrite lookup_insert_ne by discriminate. apply lookup_insert_eq.
  - apply lookup_insert_eq.
  - intros k Hip Hport. rewrite !lookup_insert_ne by congruence. reflexivity.
  - auto.
Qed.

(** X13. When the write, the stop and the bind all go through,
    [update_osc_config] answers success and the three views agree: the
    configuration holds the requested address, the file holds that
    configuration, and the registered listener is bound to that address. *)
Theorem update_osc_config_success_is_consistent
    (E : env) (data : gmap string value) (w : world) (ip : string) (port : Z) :
  data !! "osc_ip" = Some (VStr ip) ->
  data !! "osc_port" = Some (VInt port) ->
  write_config E = Written ->
  shutdown_error E = None ->
  bind_error E ip port = None ->
  let w' := (update_osc_config E data w).2 in
  (update_osc_config E data w).1
    = Ok {| success := true; message := "Configuration updated" |}
  /\ config w' = <["osc_port" := VInt port]> (<["osc_ip" := VStr ip]> (config w))
  /\ config_file w' = Document (config w')
  /\ osc_server_instance w' = Some {| srv_ip := ip; srv_port := port |}.
Proof.
  intros Hip Hport Hwrite Hstop Hbind w'.
  destruct (update_osc_config_run E data w) as (b & Hb & Hrun).
  subst w'. rewrite Hrun. simpl.
  set (w2 := (save_config E (with_config w (updated_config data (config w)))).2) in *.
  assert (Hcfg2 : config w2 = <["osc_port" := VInt port]> (<["osc_ip" := VStr ip]> (config w))).
  { subst w2. rewrite save_config_run. simpl.
    unfold updated_config, bind_ip, bind_port. rewrite Hip, Hport. reflexivity. }
  assert (Hfile2 : config_file w2 = Document (config w2)).
  { subst w2. rewrite save_config_run. simpl. unfold file_after_save.
    rewrite Hwrite. reflexivity. }
  destruct (restart_binds_current_configuration_aux E w2 ip port) as (Hres & Hsrv & Hc);
    try assumption.
  { rewrite Hcfg2, lookup_insert_ne by discriminate.
    rewrite lookup_insert_eq. reflexivity. }
  { rewrite Hcfg2, lookup_insert_eq. reflexivity. }
  rewrite Hb in Hres. simpl in Hres. injection Hres as ->.
  destruct (restart_osc_server_config E w2) as (Hc' & Hf' & _).
  rewrite Hc', Hf', Hsrv, Hfile2, Hcfg2. auto.
Qed.

Lemma update_osc_config_success_is_consistent_witness :
  let data := list_to_map [("osc_ip", VStr "0.0.0.0"); ("osc_port", VInt 9000)] in
  osc_server_instance (update_osc_config quiet data (initial_world Missing)).2
  = Some {| srv_ip := "0.0.0.0"; srv_port := 9000 |}.
Proof.
  intros data.
  apply (update_osc_config_success_is_consistent quiet data (initial_world Missing)
           "0.0.0.0" 9000); reflexivity.
Defined.

(** X14. A failed stop is answered as a failure, but nothing is rolled
    back: the requested address is already in the configuration and, when
    the write went through, in the file, while the old listener is still
    the registered one. *)
Theorem failed_update_is_not_rolled_back
    (E : env) (data : gmap string value) (w : world) (old : server) (e : string) :
  osc_server_instance w = Some old ->
  shutdown_error E = Some e ->
  write_config E = Written ->
  let w' := (update_osc_config E data w).2 in
  (update_osc_config E data w).1
    = Ok {| success := false; message := "Failed to restart server" |}
  /\ config w' = updated_config data (config w)
  /\ config_file w' = Document (updated_config data (config w))
  /\ osc_server_instance w' = Some old.
Proof.
  intros Hold Hstop Hwrite w'.
  destruct (update_osc_config_run E data w) as (b & Hb & Hrun).
  subst w'. rewrite Hrun. simpl.
  rewrite save_config_run in *. simpl in *.
  rewrite restart_osc_server_run in *. simpl in *. rewrite Hold, Hstop in *.
  simpl in *. injection Hb as <-. unfold file_after_save. rewrite Hwrite. auto.
Qed.

Lemma failed_update_is_not_rolled_back_witness :
  let E := {| kb_error := fun _ _ => None; run_osascript := fun _ => Exited 0 "";
              write_config := Written; bind_error := fun _ _ => None;
              shutdown_error := Some "timed out" |} in
  let w := (start_osc_server E (initial_world Missing)).2 in
  let w' := (update_osc_config E (list_to_map [("osc_port", VInt 9000)]) w).2 in
  config w' !! "osc_port" = Some (VInt 9000)
  /\ osc_server_instance w' = Some {| srv_ip := "0.0.0.0"; srv_port := 5005 |}.
Proof.
  intros E w w'.
  destruct (failed_update_is_not_rolled_back E
              (list_to_map [("osc_port", VInt 9000)]) w
              {| srv_ip := "0.0.0.0"; srv_port := 5005 |} "timed out"
              eq_refl eq_refl eq_refl) as (_ & Hcfg & _ & Hsrv).
  fold w' in Hcfg, Hsrv. rewrite Hcfg, Hsrv. split; reflexivity.
Defined.

(** X15. The address given to [update_osc_config] is the one the next
    process listens on: when the write went through, a fresh process that
    loads the file and starts its listener binds to the requested address,
    whatever the configuration held before. *)
Theorem saved_address_is_bound_at_next_start
    (E E' : env) (data : gmap string value) (w : world) (ip : string) (port : Z) :
  data !! "osc_ip" = Some (VStr ip) ->
  data !! "osc_port" = Some (VInt port) ->
  write_config E = Written ->
  bind_error E' ip port = None ->
  let file := config_file (update_osc_config E data w).2 in
  osc_server_instance
    (start_osc_server E' (load_config E' (initial_world file)).2).2
  = Some {| srv_ip := ip; srv_port := port |}.
Proof.
  intros Hip Hport Hwrite Hbind file.
  assert (Hfile : file = Document (updated_config data (config w))).
  { subst file. destruct (update_osc_config_run E data w) as (b & _ & ->).
    simpl. destruct (restart_osc_server_config E
      (save_config E (with_config w (updated_config data (config w)))).2)
      as (_ & -> & _).
    rewrite save_config_run. simpl. unfold file_after_save. rewrite Hwrite.
    reflexivity. }
  rewrite Hfile.
  rewrite (load_config_document E' _ (updated_config data (config w)))
    by reflexivity.
  cbn [snd].
  destruct (start_osc_server_run E'
              (extend (with_config
                         (initial_world (Document (updated_config data (config w))))
                         (updated_config data (config w)
                          ∪ config (initial_world
                                      (Document (updated_config data (config w))))))
                 [(INFO, "Configuration loaded from file")] [] []))
    as (r & Hb & ->).
  unfold bind_ip, bind_port in Hb. cbn [config extend with_config] in Hb.
  rewrite (lookup_union_Some_l _ _ "osc_ip" (VStr ip)) in Hb.
  2: { unfold updated_config, bind_ip. rewrite lookup_insert_ne by discriminate.
       rewrite lookup_insert_eq, Hip. reflexivity. }
  rewrite (lookup_union_Some_l _ _ "osc_port" (VInt port)) in Hb.
  2: { unfold updated_config, bind_port. rewrite lookup_insert_eq, Hport.
       reflexivity. }
  unfold bind in Hb. simpl in Hb. rewrite Hbind in Hb. injection Hb as <-.
  reflexivity.
Qed.

Lemma saved_address_is_bound_at_next_start_witness :
  let data := list_to_map [("osc_ip", VStr "10.0.0.7"); ("osc_port", VInt 9001)] in
  let file := config_file (update_osc_config quiet data (initial_world Missing)).2 in
  osc_server_instance
    (start_osc_server pynput (load_config pynput (initial_world file)).2).2
  = Some {| srv_ip := "10.0.0.7"; srv_port := 9001 |}.
Proof.
  intros data.
  apply (saved_address_is_bound_at_next_start quiet pynput data
           (initial_world Missing) "10.0.0.7" 9001); reflexivity.
Defined.

(** ** Shortcut table *)

Lemma add_shortcut_run (E : env) (data : shortcut_request) (w : world)
    (address : string) (sc : shortcut) (m : gmap string shortcut) :
  rq_address data = Some address ->
  Py.startswith address "/key/" = true ->
  rq_shortcut data = Some sc ->
  config w !! "custom_shortcuts" = Some (VShortcuts m) ->
  add_shortcut E data w =
    (Ok {| ok := true; note := None |},
     (save_config E
        (with_config w (with_table (config w) (<[address := sc]> m)))).2).
Proof.
  intros Ha Hp Hs Hm.
  unfold add_shortcut, setitem_shortcut; unfold try_except, mbind, M_bind, getitem, setitem_shortcut,
    get_config, set_config, mret, M_ret, with_config, with_table.
  rewrite Ha, Hs. simpl. rewrite Hp. simpl. rewrite Hm. simpl.
  rewrite !save_config_run. reflexivity.
Qed.

Lemma delete_shortcut_run (E : env) (data : shortcut_request) (w : world)
    (address : string) (sc : shortcut) (m : gmap string shortcut) :
  rq_address data = Some address ->
  config w !! "custom_shortcuts" = Some (VShortcuts m) ->
  m !! address = Some sc ->
  delete_shortcut E data w =
    (Ok {| ok := true; note := None |},
     (save_config E
        (with_config w (with_table (config w) (delete address m)))).2).
Proof.
  intros Ha Hm Hsc.
  unfold delete_shortcut, try_except, mbind, M_bind, getitem,
    get_config, set_config, mret, M_ret, with_config, with_table, dict_in.
  rewrite Ha. simpl. rewrite Hm, Hsc.
  rewrite bool_decide_eq_true_2 by eauto. simpl.
  rewrite !save_config_run. reflexivity.
Qed.

Lemma add_shortcut_cases (E : env) (data : shortcut_request) (w : world) :
  (exists msg,
     add_shortcut E data w = (Ok {| ok := false; note := Some msg |}, w)
     /\ ~ exists address sc m,
           rq_address data = Some address
           /\ Py.startswith address "/key/" = true
           /\ rq_shortcut data = Some sc
           /\ config w !! "custom_shortcuts" = Some (VShortcuts m))
  \/ (exists address sc m,
        rq_address data = Some address
        /\ Py.startswith address "/key/" = true
        /\ rq_shortcut data = Some sc
        /\ config w !! "custom_shortcuts" = Some (VShortcuts m)
        /\ add_shortcut E data w =
             (Ok {| ok := true; note := None |},
              (save_config E
                 (with_config w (with_table (config w) (<[address := sc]> m)))).2)).
Proof.
  destruct (rq_address data) as [address|] eqn:Ha.
  2: { left. exists "'address'". split.
       - unfold add_shortcut, try_except, mbind, M_bind, getitem, raise.
         rewrite Ha. reflexivity.
       - intros (a & sc & m & H & _). discriminate H. }
  destruct (Py.startswith address "/key/") eqn:Hp.
  2: { left. exists "Address must start with /key/". split.
       - unfold add_shortcut, try_except, mbind, M_bind, getitem, mret, M_ret.
         rewrite Ha. simpl. rewrite Hp. reflexivity.
       - intros (a & sc & m & [= <-] & H & _). congruence. }
  destruct (rq_shortcut data) as [sc|] eqn:Hs.
  2: { left. exists "'shortcut'". split.
       - unfold add_shortcut, try_except, mbind, M_bind, getitem, mret, M_ret, raise.
         rewrite Ha, Hs. simpl. rewrite Hp. reflexivity.
       - intros (a & sc & m & _ & _ & H & _). discriminate H. }
  destruct (config w !! "custom_shortcuts") as [[s|n|m]|] eqn:Hm.
  3: { right. exists address, sc, m. repeat (split; [assumption || reflexivity|]).
       apply (add_shortcut_run E data w address sc m); assumption. }
  all: left; eexists; split;
    [unfold add_shortcut, setitem_shortcut;
     unfold try_except, mbind, M_bind, getitem, mret, M_ret, get_config, raise;
     rewrite Ha, Hs; simpl; rewrite Hp; simpl; rewrite Hm; reflexivity
    |intros (a & sc' & m & _ & _ & _ & H); discriminate H].
Qed.

Lemma delete_shortcut_cases (E : env) (data : shortcut_request) (w : world) :
  (exists msg,
     delete_shortcut E data w = (Ok {| ok := false; note := Some msg |}, w)
     /\ (forall address m,
           rq_address data = Some address ->
           config w !! "custom_shortcuts" = Some (VShortcuts m) ->
           m !! address = None /\ msg = "Shortcut not found"))
  \/ (exists address sc m,
        rq_address data = Some address
        /\ config w !! "custom_shortcuts" = Some (VShortcuts m)
        /\ m !! address = Some sc
        /\ delete_shortcut E data w =
             (Ok {| ok := true; note := None |},
              (save_config E
                 (with_config w (with_table (config w) (delete address m)))).2)).
Proof.
  destruct (rq_address data) as [address|] eqn:Ha.
  2: { left. exists "'address'". split.
       - unfold delete_shortcut, try_except, mbind, M_bind, getitem, raise.
         rewrite Ha. reflexivity.
       - intros a m H. discriminate H. }
  destruct (config w !! "custom_shortcuts") as [[s|n|m]|] eqn:Hm.
  3: { destruct (m !! address) as [sc|] eqn:Hsc.
       - right. exists address, sc, m. repeat (split; [assumption || reflexivity|]).
         apply (delete_shortcut_run E data w address sc m); assumption.
       - left. exists "Shortcut not found". split.
         + unfold delete_shortcut, try_except, mbind, M_bind, getitem, mret,
             M_ret, get_config, dict_in.
           rewrite Ha. simpl. rewrite Hm, Hsc.
           rewrite bool_decide_eq_false_2 by (intros [x Hx]; discriminate Hx).
           reflexivity.
         + intros a m' [= <-] [= <-]. auto. }
  all: assert (Hrun : exists msg, delete_shortcut E data w
                        = (Ok {| ok := false; note := Some msg |}, w));
    [unfold delete_shortcut, try_except, mbind, M_bind, getitem, mret, M_ret,
       get_config, raise; rewrite Ha; simpl; rewrite Hm;
     try (destruct (Py.occurs_in address s)); eauto|];
    destruct Hrun as [msg Hrun]; left; exists msg; (split; [exact Hrun|]);
    intros a m _ H; discriminate H.
Qed.

Lemma table_of_Some (w : world) (m : gmap string shortcut) :
  table_of w = Some m <-> config w !! "custom_shortcuts" = Some (VShortcuts m).
Proof.
  unfold table_of. destruct (config w !! "custom_shortcuts") as [[]|];
    split; congruence.
Qed.

(** X16. [add_shortcut] always answers and never raises. It accepts the
    request exactly when the address is there and starts with [/key/], the
    shortcut is there, and the configuration holds a shortcut table; a
    request it turns down gets a message and leaves the world as it was:
    nothing is stored and nothing is written. *)
Theorem add_shortcut_accepts_or_leaves_untouched
    (E : env) (data : shortcut_request) (w : world) :
  exists r w',
    add_shortcut E data w = (Ok r, w')
    /\ (ok r = true <->
        exists address sc m,
          rq_address data = Some address
          /\ Py.startswith address "/key/" = true
          /\ rq_shortcut data = Some sc
          /\ table_of w = Some m)
    /\ (ok r = false -> w' = w /\ is_Some (note r)).
Proof.
  destruct (add_shortcut_cases E data w)
    as [(msg & Hrun & Hno)|(a & sc & m & Ha & Hp & Hs & Hm & Hrun)].
  - exists {| ok := false; note := Some msg |}, w. split; [exact Hrun|].
    simpl. split; [|eauto]. split; [discriminate|].
    intros (a & sc & m & Ha & Hp & Hs & Hm). exfalso. apply Hno.
    exists a, sc, m. rewrite <- table_of_Some. auto.
  - eexists _, _. split; [exact Hrun|]. simpl. split; [|discriminate].
    split; [|reflexivity]. intros _. exists a, sc, m. rewrite table_of_Some. auto.
Qed.

(** X17. An accepted [add_shortcut] puts the entry under its address,
    replacing what was there and touching no other address, no other key of
    the configuration, no listener. From then on a message to that address
    is handled as the new entry says, whatever its arguments, and a message
    to any other address is handled as before. The answer is a success
    whether or not the write went through; the file holds the new
    configuration only when it did. *)
Theorem added_shortcut_is_resolved
    (E : env) (data : shortcut_request) (w : world)
    (address : string) (sc : shortcut) (m : gmap string shortcut) :
  rq_address data = Some address ->
  Py.startswith address "/key/" = true ->
  rq_shortcut data = Some sc ->
  table_of w = Some m ->
  let w' := (add_shortcut E data w).2 in
  (add_shortcut E data w).1 = Ok {| ok := true; note := None |}
  /\ table_of w' = Some (<[address := sc]> m)
  /\ (forall k, k <> "custom_shortcuts" -> config w' !! k = config w !! k)
  /\ osc_server_instance w' = osc_server_instance w
  /\ config_file w' =
       match write_config E with
       | Written => Document (config w')
       | OpenFails _ => config_file w
       | DumpFails _ left_over => Unreadable left_over
       end
  /\ (forall E' args,
        handle_keypress E' address args w'
        = perform E' address (resolve_entry sc) w')
  /\ (forall E' other args, other <> address ->
        handle_keypress E' other args w'
        = perform E' other (resolve m other args) w').
Proof.
  intros Ha Hp Hs Hm w'. apply table_of_Some in Hm.
  assert (Hw' : w' = with_file
                  (with_config w (with_table (config w) (<[address := sc]> m)))
                  (file_after_save E (with_table (config w) (<[address := sc]> m))
                     (config_file w))
                  [save_record E]).
  { subst w'. rewrite (add_shortcut_run E data w address sc m) by assumption.
    rewrite save_config_run. reflexivity. }
  assert (Htable : config w' !! "custom_shortcuts"
                   = Some (VShortcuts (<[address := sc]> m))).
  { rewrite Hw'. simpl. unfold with_table. apply lookup_insert_eq. }
  split.
  { subst w'. rewrite (add_shortcut_run E data w address sc m) by assumption.
    reflexivity. }
  split; [apply table_of_Some, Htable|]. split.
  { intros k Hk. rewrite Hw'. simpl. unfold with_table.
    rewrite lookup_insert_ne by congruence. reflexivity. }
  split; [rewrite Hw'; reflexivity|]. split.
  { rewrite Hw'. simpl. unfold file_after_save. destruct (write_config E); reflexivity. }
  split.
  - intros E' args.
    rewrite (handle_keypress_resolve E' w' (<[address := sc]> m)) by exact Htable.
    unfold resolve. rewrite lookup_insert_eq. reflexivity.
  - intros E' other args Hne.
    rewrite (handle_keypress_resolve E' w' (<[address := sc]> m)) by exact Htable.
    unfold resolve. rewrite lookup_insert_ne by congruence. reflexivity.
Qed.

Lemma added_shortcut_is_resolved_witness :
  let sc := {| sc_modifiers := Some ["command"]; sc_key := Some "q";
               sc_description := Some "Quit" |} in
  let data := {| rq_address := Some "/key/quit"; rq_shortcut := Some sc |} in
  table_of (add_shortcut quiet data (initial_world Missing)).2
  = Some (<["/key/quit" := sc]> DEFAULT_SHORTCUTS).
Proof.
  intros sc data.
  apply (added_shortcut_is_resolved quiet data (initial_world Missing)
           "/key/quit" sc DEFAULT_SHORTCUTS); reflexivity.
Defined.

(** X18. [delete_shortcut] always answers and never raises. It succeeds
    exactly when the address is there and is an address of the shortcut
    table, and then removes that entry alone; otherwise it answers with a
    message ("Shortcut not found" for an address the table does not hold)
    and leaves the world as it was: nothing is written. *)
Theorem delete_shortcut_removes_or_leaves_untouched
    (E : env) (data : shortcut_request) (w : world) :
  exists r w',
    delete_shortcut E data w = (Ok r, w')
    /\ (ok r = true <->
        exists address m,
          rq_address data = Some address /\ table_of w = Some m
          /\ is_Some (m !! address))
    /\ (ok r = false -> w' = w /\ is_Some (note r))
    /\ (forall address m,
          rq_address data = Some address -> table_of w = Some m ->
          if dict_in address m
          then table_of w' = Some (delete address m)
               /\ (forall k, k <> "custom_shortcuts" -> config w' !! k = config w !! k)
          else note r = Some "Shortcut not found").
Proof.
  destruct (delete_shortcut_cases E data w)
    as [(msg & Hrun & Hno)|(a & sc & m & Ha & Hm & Hsc & Hrun)].
  - exists {| ok := false; note := Some msg |}, w. split; [exact Hrun|].
    simpl. split; [|split; [eauto|]].
    + split; [discriminate|].
      intros (a & m & Ha & Hm & [x Hx]). apply table_of_Some in Hm.
      destruct (Hno a m Ha Hm) as [Hnone _]. congruence.
    + intros a m Ha Hm. apply table_of_Some in Hm.
      destruct (Hno a m Ha Hm) as [Hnone ->]. unfold dict_in.
      rewrite bool_decide_eq_false_2; [reflexivity|].
      intros [x Hx]. congruence.
  - eexists _, _. split; [exact Hrun|]. simpl. split; [|split; [discriminate|]].
    + split; [|reflexivity]. intros _. exists a, m. rewrite table_of_Some. eauto.
    + intros a' m' Ha' Hm'. apply table_of_Some in Hm'.
      assert (a' = a) as -> by congruence. assert (m' = m) as -> by congruence.
      unfold dict_in. rewrite bool_decide_eq_true_2 by eauto.
      rewrite save_config_run. simpl. unfold table_of, with_table. simpl.
      rewrite lookup_insert_eq. split; [reflexivity|].
      intros k Hk. rewrite lookup_insert_ne by congruence. reflexivity.
Qed.

(** X19. Once a shortcut is deleted its address is handled by the
    argument heuristic alone, as if the table were empty, and a message to
    any other address is handled as before. *)
Theorem deleted_shortcut_falls_back_to_arguments
    (E : env) (data : shortcut_request) (w : world)
    (address : string) (sc : shortcut) (m : gmap string shortcut) :
  rq_address data = Some address ->
  table_of w = Some m ->
  m !! address = Some sc ->
  let w' := (delete_shortcut E data w).2 in
  (delete_shortcut E data w).1 = Ok {| ok := true; note := None |}
  /\ (forall E' args,
        handle_keypress E' address args w'
        = perform E' address (resolve ∅ address args) w')
  /\ (forall E' other args, other <> address ->
        handle_keypress E' other args w'
        = perform E' other (resolve m other args) w').
Proof.
  intros Ha Hm Hsc w'. apply table_of_Some in Hm.
  assert (Htable : config w' !! "custom_shortcuts"
                   = Some (VShortcuts (delete address m))).
  { subst w'. rewrite (delete_shortcut_run E data w address sc m) by assumption.
    rewrite save_config_run. simpl. unfold with_table. apply lookup_insert_eq. }
  split.
  { subst w'. rewrite (delete_shortcut_run E data w address sc m) by assumption.
    reflexivity. }
  split.
  - intros E' args.
    rewrite (handle_keypress_resolve E' w' (delete address m)) by exact Htable.
    unfold resolve. rewrite lookup_delete_eq, lookup_empty. reflexivity.
  - intros E' other args Hne.
    rewrite (handle_keypress_resolve E' w' (delete address m)) by exact Htable.
    unfold resolve. rewrite lookup_delete_ne by congruence. reflexivity.
Qed.

Lemma deleted_shortcut_falls_back_to_arguments_witness :
  let data := {| rq_address := Some "/key/copy"; rq_shortcut := None |} in
  let w' := (delete_shortcut quiet data (initial_world Missing)).2 in
  keyboard (handle_keypress pynput "/key/copy" [ArgStr "x"] w').2
  = [Press (Char "x"); Release (Char "x")].
Proof.
  intros data w'.
  destruct (DEFAULT_SHORTCUTS !! "/key/copy") as [sc|] eqn:Hsc;
    [|vm_compute in Hsc; discriminate Hsc].
  destruct (deleted_shortcut_falls_back_to_arguments quiet data
              (initial_world Missing) "/key/copy" sc DEFAULT_SHORTCUTS
              eq_refl eq_refl Hsc) as (_ & Hfall & _).
  fold w' in Hfall. rewrite Hfall. reflexivity.
Defined.

(** X20. Adding a shortcut under an address the table does not hold and
    deleting it again brings back the configuration as it was, and, when
    the writes go through, a file that holds exactly that configuration;
    both requests are answered as successes. *)
Theorem add_then_delete_restores
    (E : env) (data : shortcut_request) (w : world)
    (address : string) (sc : shortcut) (m : gmap string shortcut) :
  rq_address data = Some address ->
  Py.startswith address "/key/" = true ->
  rq_shortcut data = Some sc ->
  table_of w = Some m ->
  m !! address = None ->
  write_config E = Written ->
  let w1 := (add_shortcut E data w).2 in
  let w2 := (delete_shortcut E data w1).2 in
  (delete_shortcut E data w1).1 = Ok {| ok := true; note := None |}
  /\ config w2 = config w
  /\ config_file w2 = Document (config w).
Proof.
  intros Ha Hp Hs Hm Hfresh Hwrite w1 w2.
  assert (Hcfg : config w !! "custom_shortcuts" = Some (VShortcuts m)).
  { unfold table_of in Hm. destruct (config w !! "custom_shortcuts") as [[]|];
      congruence. }
  assert (H1 : w1 = with_file (with_config w (with_table (config w) (<[address := sc]> m)))
                      (Document (with_table (config w) (<[address := sc]> m)))
                      [save_record E]).
  { subst w1. rewrite (add_shortcut_run E data w address sc m) by assumption.
    rewrite save_config_run. simpl. unfold file_after_save. rewrite Hwrite.
    reflexivity. }
  assert (Hback : with_table (config w1) (delete address (<[address := sc]> m))
                  = config w).
  { rewrite H1. simpl. unfold with_table.
    rewrite insert_insert_eq, delete_insert_id by assumption.
    apply insert_id, Hcfg. }
  subst w2.
  rewrite (delete_shortcut_run E data w1 address sc (<[address := sc]> m));
    [|assumption|rewrite H1; apply lookup_insert_eq|apply lookup_insert_eq].
  rewrite save_config_run. simpl. rewrite Hback.
  unfold file_after_save. rewrite Hwrite. auto.
Qed.

Lemma add_then_delete_restores_witness :
  let sc := {| sc_modifiers := Some ["command"]; sc_key := Some "q";
               sc_description := None |} in
  let data := {| rq_address := Some "/key/quit"; rq_shortcut := Some sc |} in
  config (delete_shortcut quiet data
            (add_shortcut quiet data (initial_world Missing)).2).2
  = DEFAULT_CONFIG.
Proof.
  intros sc data.
  apply (add_then_delete_restores quiet data (initial_world Missing)
           "/key/quit" sc DEFAULT_SHORTCUTS); reflexivity.
Defined.

(** X21. The three top-level keys of the default configuration, once
    present, stay present through loading, through an address update,
    through adding and deleting shortcuts and through a restart: no
    operation removes a top-level key. *)
Theorem default_keys_are_kept (E : env) (w : world) :
  has_default_keys (config w) ->
  has_default_keys (config (load_config E w).2)
  /\ has_default_keys (config (restart_osc_server E w).2)
  /\ (forall data, has_default_keys (config (update_osc_config E data w).2))
  /\ (forall data, has_default_keys (config (add_shortcut E data w).2))
  /\ (forall data, has_default_keys (config (delete_shortcut E data w).2)).
Proof.
  intros Hkeys.
  assert (Hins : forall k v cfg,
            has_default_keys cfg -> has_default_keys (<[k := v]> cfg)).
  { intros k v cfg Hc k' Hk'. destruct (decide (k = k')) as [->|Hne].
    - rewrite lookup_insert_eq. eauto.
    - rewrite lookup_insert_ne by exact Hne. apply Hc, Hk'. }
  split; [|split; [|split; [|split]]].
  - destruct (config_file w) as [|e|d] eqn:Hfile.
    + destruct (load_config_creates_file_run E w Hfile) as [-> _]. exact Hkeys.
    + unfold load_config, try_except, mbind, M_bind, get_file, raise.
      rewrite Hfile, logger_run. simpl. intros k Hk. exact Hk.
    + rewrite (load_config_document E w d Hfile). simpl. intros k Hk.
      destruct (Hkeys k Hk) as [x Hx]. rewrite lookup_union, Hx.
      destruct (d !! k); simpl; eauto.
  - destruct (restart_osc_server_config E w) as [-> _]. exact Hkeys.
  - intros data. destruct (update_osc_config_run E data w) as (b & _ & ->).
    simpl. destruct (restart_osc_server_config E
      (save_config E (with_config w (updated_config data (config w)))).2) as [-> _].
    rewrite save_config_run. simpl. unfold updated_config. auto.
  - intros data.
    destruct (add_shortcut_cases E data w)
      as [(msg & -> & _)|(a & sc & m & _ & _ & _ & _ & ->)]; [exact Hkeys|].
    rewrite save_config_run. simpl. unfold with_table. auto.
  - intros data.
    destruct (delete_shortcut_cases E data w)
      as [(msg & -> & _)|(a & sc & m & _ & _ & _ & ->)]; [exact Hkeys|].
    rewrite save_config_run. simpl. unfold with_table. auto.
Qed.

Lemma default_keys_are_kept_witness :
  let sc := {| sc_modifiers := None; sc_key := Some "q"; sc_description := None |} in
  let data := {| rq_address := Some "/key/quit"; rq_shortcut := Some sc |} in
  has_default_keys (config (add_shortcut quiet data (initial_world Missing)).2).
Proof.
  intros sc data.
  apply (default_keys_are_kept quiet (initial_world Missing)).
  intros k Hk. exact Hk.
Defined.

(** ** Log buffer *)

Lemma deque_keeps_the_tail {A} (maxlen : nat) (records : list A) :
  foldl (fun buffer entry => deque_append maxlen entry buffer) [] records
  = drop (length records - maxlen) records.
Proof.
  induction records as [|x rs IH] using rev_ind; [reflexivity|].
  rewrite foldl_app. simpl. rewrite IH. unfold deque_append.
  rewrite !length_app, length_drop. simpl.
  destruct (Nat.leb (length rs - (length rs - maxlen) + 1) maxlen) eqn:Hfull.
  - apply Nat.leb_le in Hfull.
    replace (length rs - maxlen)%nat with 0%nat by lia.
    replace (length rs + 1 - maxlen)%nat with 0%nat by lia. reflexivity.
  - apply Nat.leb_gt in Hfull.
    replace (length rs + 1 - maxlen)%nat with (S (length rs - maxlen))%nat by lia.
    destruct (decide (maxlen = 0%nat)) as [->|Hpos].
    + rewrite Nat.sub_0_r, drop_all. simpl.
      rewrite drop_ge by (rewrite length_app; simpl; lia). reflexivity.
    + rewrite (drop_app_le (drop _ rs)) by (rewrite length_drop; lia).
      rewrite drop_drop, drop_app_le by lia.
      replace (length rs - maxlen + 1)%nat with (S (length rs - maxlen)) by lia.
      reflexivity.
Qed.

(** X22. The log page gets the last 500 records handed to the logger, in
    order, and all of them while there are at most 500: the buffer never
    holds more, and what it drops are the oldest records. *)
Theorem get_logs_returns_the_last_500 (w : world) :
  get_logs w = drop (length (log w) - 500) (log w)
  /\ (length (get_logs w) <= 500)%nat
  /\ ((length (log w) <= 500)%nat -> get_logs w = log w).
Proof.
  assert (Hlogs : get_logs w = drop (length (log w) - 500) (log w)).
  { apply (deque_keeps_the_tail 500). }
  rewrite Hlogs. split; [reflexivity|]. split.
  - rewrite length_drop. lia.
  - intros Hle. replace (length (log w) - 500)%nat with 0%nat by lia. reflexivity.
Qed.

(** ** Permission check *)

Lemma warn_all_run (lines : list string) (w : world) :
  warn_all lines w = (Ok tt, extend w (map (fun line => (WARNING, line)) lines) [] []).
Proof.
  revert w. induction lines as [|line rest IH]; intros w.
  - simpl. rewrite extend_nil. reflexivity.
  - simpl. unfold mbind, M_bind. rewrite logger_run, IH, extend_extend. reflexivity.
Qed.

(** X23. [check_accessibility_permissions] never raises. It answers [True]
    exactly when the keyboard took both the press and the release of
    shift; the keyboard has received the calls that went through and no
    other, so a refused release leaves shift pressed. A refusal is reported
    as one WARNING record with the exception followed by the notice. *)
Theorem check_accessibility_permissions_outcome (E : env) (w : world) :
  let shift := Special Key_shift in
  let '(sent, err) := play E (keyboard w) [Press shift; Release shift] in
  check_accessibility_permissions E w =
    (Ok (bool_decide (err = None)),
     extend w
       ((INFO, "Checking accessibility permissions...") ::
        match err with
        | None => [(INFO, "Accessibility permissions granted")]
        | Some e =>
            (WARNING, "Accessibility permissions check: " +:+ e) ::
            map (fun line => (WARNING, line)) PERMISSION_NOTICE
        end)
       sent []).
Proof.
  unfold check_accessibility_permissions, try_except, mbind, M_bind,
    keyboard_press, keyboard_release, keyboard_emit, mret, M_ret.
  rewrite logger_run. cbn -[PERMISSION_NOTICE logger warn_all].
  rewrite !app_nil_r.
  destruct (kb_error E (keyboard w) (Press (Special Key_shift))) as [e|].
  - rewrite logger_run, warn_all_run, !extend_extend. reflexivity.
  - cbn -[PERMISSION_NOTICE logger warn_all].
    destruct (kb_error E (keyboard w ++ [Press (Special Key_shift)])
                (Release (Special Key_shift))) as [e|].
    + rewrite logger_run, warn_all_run.
      unfold extend. cbn -[PERMISSION_NOTICE]. rewrite !app_nil_r, <- !app_assoc.
      reflexivity.
    + rewrite logger_run.
      unfold extend. cbn -[PERMISSION_NOTICE]. rewrite !app_nil_r, <- !app_assoc.
      reflexivity.
Qed.
